(** * uiotest: the UIO interrupt tester of tester/src/main.c

    The program opens a UIO character device, maps the AXI GPIO register
    window, arms the peripheral's interrupt and then loops forever:
    unmask (write), wait (blocking read), acknowledge.

    The embedding separates what the program asks for from what the
    platform answers.  A C function becomes a finite tree of requests
    ([prog]): every system call, library call and volatile register access
    is a node whose children are indexed by the answer.  The [while (1)]
    loop is unrolled [fuel] times and then ends in [Diverge], which stands
    for a loop that is still running.  A [Platform] gives the answers, and
    [run] threads the platform state through a tree, records the events in
    program order and delivers SIGINT to the installed handler between two
    requests. *)

From Stdlib Require Import ZArith List String Bool Lia.
Import ListNotations.
Open Scope string_scope.
Open Scope list_scope.
Open Scope Z_scope.

(** ** C data model *)

(** [unsigned long] and [size_t] have the same width on Linux: four bytes
    on the 32-bit targets, eight on the 64-bit ones. *)
Inductive data_model : Set := ILP32 | LP64.

Definition sizeof_long (dm : data_model) : Z :=
  match dm with ILP32 => 4 | LP64 => 8 end.

Definition to_ulong (dm : data_model) (z : Z) : Z :=
  z mod 2 ^ (8 * sizeof_long dm).

Definition to_size_t (dm : data_model) (z : Z) : Z :=
  z mod 2 ^ (8 * sizeof_long dm).

(** [int] is 32 bits wide, two's complement. *)
Definition to_int (z : Z) : Z := (z + 2 ^ 31) mod 2 ^ 32 - 2 ^ 31.

(** ** Constants *)

Definition AXI_GPIO_ADDR_SIZE : Z := 0x00010000.
Definition AXI_GPIO_DATA_OFFSET : Z := 0x00000000.
Definition AXI_GPIO_TRI_OFFSET : Z := 0x00000004.
Definition AXI_GPIO_GIER_OFFSET : Z := 0x0000011C.
Definition AXI_GPIO_IPISR_OFFSET : Z := 0x00000120.
Definition AXI_GPIO_IPIER_OFFSET : Z := 0x00000128.

(** [(1 << 31)] is an [int] expression; it reaches [write_reg] through the
    conversion to [unsigned long]. *)
Definition AXI_GPIO_GIER_ENABLE (dm : data_model) : Z :=
  to_ulong dm (to_int (Z.shiftl 1 31)).

(** Values of the Linux headers the program is compiled against. *)
Definition EXIT_SUCCESS : Z := 0.
Definition EXIT_FAILURE : Z := 1.
Definition SIGINT : Z := 2.
Definition SIGKILL : Z := 9.
Definition SIGSTOP : Z := 19.
Definition O_RDWR : Z := 2.
Definition O_SYNC : Z := 0x101000.
Definition PROT_READ : Z := 1.
Definition PROT_WRITE : Z := 2.
Definition MAP_SHARED : Z := 1.

(** ** Requests and events *)

(** An argument of a printf-style call. *)
Inductive farg : Set :=
| FStr (s : string)
| FNum (n : Z).

(** What the program can ask of its platform; the index is the type of the
    answer.  [Mmap] answers [None] for [MAP_FAILED].  [ReadFd] carries the
    current content of the destination buffer and answers the return value
    together with the content of the buffer after the call.  [Stderr] is
    the output of the [print_error] and [DEBUG_PRINT] macros and of
    [err]: tag, [__FUNCTION__], [__LINE__], format, arguments.
    [Indeterminate] reads an automatic variable that was never assigned. *)
Inductive op : Type -> Type :=
| Open (name : string) (flags : Z) : op Z
| Mmap (len prot flags fd : Z) : op (option Z)
| Munmap (addr len : Z) : op unit
| Close (fd : Z) : op unit
| WriteFd (fd val count : Z) : op Z
| ReadFd (fd buf count : Z) : op (Z * Z)
| Usleep (usec : Z) : op unit
| Fork : op Z
| Strerror : op string
| LoadReg (base off : Z) : op Z
| StoreReg (base off val : Z) : op unit
| Stdout (fmt : string) (args : list farg) : op unit
| Stderr (tag func : string) (line : Z) (fmt : string) (args : list farg)
    : op unit
| Indeterminate (var : string) : op Z.

Inductive event : Type :=
| EvOpen (name : string) (flags ret : Z)
| EvMmap (len prot flags fd : Z) (ret : option Z)
| EvMunmap (addr len : Z)
| EvClose (fd : Z)
| EvWrite (fd val count ret : Z)
| EvRead (fd count ret buf : Z)
| EvUsleep (usec : Z)
| EvFork (ret : Z)
| EvLoad (base off val : Z)
| EvStore (base off val : Z)
| EvStdout (fmt : string) (args : list farg)
| EvStderr (tag func : string) (line : Z) (fmt : string) (args : list farg)
| EvSignal (signo : Z).

(** The event a request leaves in the trace.  Reading [errno] or an
    unassigned variable is not observable. *)
Definition event_of {R : Type} (o : op R) : R -> list event :=
  match o in op T return T -> list event with
  | Open name flags => fun r => [EvOpen name flags r]
  | Mmap len prot flags fd => fun r => [EvMmap len prot flags fd r]
  | Munmap addr len => fun _ => [EvMunmap addr len]
  | Close fd => fun _ => [EvClose fd]
  | WriteFd fd val count => fun r => [EvWrite fd val count r]
  | ReadFd fd _ count => fun r => [EvRead fd count (fst r) (snd r)]
  | Usleep usec => fun _ => [EvUsleep usec]
  | Fork => fun r => [EvFork r]
  | Strerror => fun _ => []
  | LoadReg base off => fun r => [EvLoad base off r]
  | StoreReg base off val => fun _ => [EvStore base off val]
  | Stdout fmt args => fun _ => [EvStdout fmt args]
  | Stderr tag func line fmt args => fun _ => [EvStderr tag func line fmt args]
  | Indeterminate _ => fun _ => []
  end.

(** ** Programs *)

Inductive prog (A : Type) : Type :=
| Ret (a : A)
| Do {R : Type} (o : op R) (k : R -> prog A)
| Exit (status : Z)
| Diverge.

Arguments Ret {A} a.
Arguments Do {A R} o k.
Arguments Exit {A} status.
Arguments Diverge {A}.

Fixpoint bind {A B : Type} (p : prog A) (f : A -> prog B) : prog B :=
  match p with
  | Ret a => f a
  | Do o k => Do o (fun r => bind (k r) f)
  | Exit s => Exit s
  | Diverge => Diverge
  end.

Definition call {R : Type} (o : op R) : prog R := Do o Ret.

Declare Scope prog_scope.
Delimit Scope prog_scope with prog.
Bind Scope prog_scope with prog.
Notation "x <- c1 ; c2" := (bind c1 (fun x => c2))
  (at level 61, c1 at next level, right associativity) : prog_scope.
Notation "c1 ;; c2" := (bind c1 (fun _ => c2))
  (at level 61, right associativity) : prog_scope.
Open Scope prog_scope.

(** ** The platform and the run of a program *)

Class Platform (W : Type) : Type :=
  handle : forall R : Type, op R -> W -> R * W.

(** How a run ends: the program returned [a], leaving the platform in
    state [w] and the signals [sigq] still to come; the process ended
    with [exit (status)]; or the loop ran out of fuel and is still
    running. *)
Inductive outcome (W A : Type) : Type :=
| Returned (a : A) (w : W) (sigq : list bool)
| Exited (status : Z)
| Running.

Arguments Returned {W A} a w sigq.
Arguments Exited {W A} status.
Arguments Running {W A}.

Section Run.
Context {W : Type} {P : Platform W}.

(** [handler signo] is [Some status] when the signal handler ends the
    process with [exit (status)] and [None] when it returns.  [sigq]
    says, request by request, whether SIGINT arrives before it. *)
Variable handler : Z -> option Z.

Definition perform {A R : Type} (o : op R)
    (rest : R -> W -> list bool -> list event * outcome W A)
    (w : W) (q : list bool) : list event * outcome W A :=
  let (r, w') := handle R o w in
  let (t, out) := rest r w' q in
  (event_of o r ++ t, out).

Fixpoint run {A : Type} (p : prog A) (w : W) (q : list bool)
    : list event * outcome W A :=
  match p with
  | Ret a => ([], Returned a w q)
  | Exit s => ([], Exited s)
  | Diverge => ([], Running)
  | Do o k =>
      match q with
      | [] => perform o (fun r => run (k r)) w []
      | false :: q' => perform o (fun r => run (k r)) w q'
      | true :: q' =>
          match handler SIGINT with
          | Some s => ([EvSignal SIGINT], Exited s)
          | None =>
              let (t, out) := perform o (fun r => run (k r)) w q' in
              (EvSignal SIGINT :: t, out)
          end
      end
  end.

End Run.

(** Sequencing of runs: [next] goes on where [first] returned. *)
Definition and_then {W A B : Type} (first : list event * outcome W A)
    (next : A -> W -> list bool -> list event * outcome W B)
    : list event * outcome W B :=
  match first with
  | (t, Returned a w q) => let (t', o) := next a w q in (t ++ t', o)
  | (t, Exited s) => (t, Exited s)
  | (t, Running) => (t, Running)
  end.

(** A run that starts with the events [t] and goes on as [r]. *)
Definition prefixed {W A : Type} (t : list event)
    (r : list event * outcome W A) : list event * outcome W A :=
  (t ++ fst r, snd r).

(** Two outcomes that differ at most in the signals still to come. *)
Definition same_result {W A : Type} (o1 o2 : outcome W A) : Prop :=
  match o1, o2 with
  | Returned a1 w1 _, Returned a2 w2 _ => a1 = a2 /\ w1 = w2
  | Exited s1, Exited s2 => s1 = s2
  | Running, Running => True
  | _, _ => False
  end.

(** ** The program *)

(** Build configuration: the data model of the target and whether the
    file is compiled with [-DDEBUG]. *)
Record config : Set := {
  cfg_model : data_model;
  cfg_debug : bool
}.

Definition usage : prog unit :=
  call (Stdout "Usage: uiotest -d uio_num [-D]\n" []).

Definition read_reg (dm : data_model) (base off : Z) : prog Z :=
  v <- call (LoadReg base off);
  Ret (to_ulong dm v).

Definition write_reg (base off val : Z) : prog unit :=
  call (StoreReg base off val).

(** The handler installed for SIGINT.  It calls [exit] for SIGINT and for
    SIGKILL and returns for every other number. *)
Definition uio_terminate (signo : Z) : option Z :=
  if signo =? SIGINT then Some EXIT_SUCCESS
  else if signo =? SIGKILL then Some EXIT_SUCCESS
  else None.

(** One answer of [getopt (argc, argv, "d:D")]: the return value and the
    globals [optarg] and [optopt] it leaves behind.  The command line is
    given as the list of the answers of the successive calls; after the
    last one getopt returns -1. *)
Record getopt_ret : Set := {
  opt : Z;
  optarg : string;
  optopt : Z
}.

(** [isprint] in the C locale. *)
Definition isprint (c : Z) : bool := (32 <=? c) && (c <=? 126).

(** [signal] fails (SIG_ERR, errno EINVAL) for a number that is not a
    signal and for SIGKILL and SIGSTOP, whose disposition cannot be
    changed. *)
Definition signal_fails (signo : Z) : bool :=
  (signo <? 1) || (64 <? signo) || (signo =? SIGKILL) || (signo =? SIGSTOP).

(** Format strings are kept as the source spells them. *)
Definition print_error (func : string) (line : Z) (fmt : string)
    (args : list farg) : prog unit :=
  call (Stderr "ERROR" func line fmt args).

Section Tester.
Variable cfg : config.

Local Abbreviation dm := (cfg_model cfg).

(** [DEBUG_PRINT] expands to [do {} while (0)] unless DEBUG is defined. *)
Definition DEBUG_PRINT (func : string) (line : Z) (fmt : string)
    (args : list farg) : prog unit :=
  if cfg_debug cfg then call (Stderr "DEBUG" func line fmt args)
  else Ret tt.

(** Lines 210-222: [if (npending) { ... }]. *)
Definition handle_pending (iomem npending : Z) : prog unit :=
  if npending =? 0 then Ret tt
  else
    call (Stdout "Interrupt was detected %lu\n" [FNum npending]);;
    isr <- read_reg dm iomem AXI_GPIO_IPISR_OFFSET;
    (if isr =? 0 then Ret tt
     else write_reg iomem AXI_GPIO_IPISR_OFFSET isr);;
    data <- read_reg dm iomem AXI_GPIO_DATA_OFFSET;
    DEBUG_PRINT "uio_run" 221 "GPIO_DATA: 0x%lx" [FNum data].

(** Lines 196-223: [while (1)], unrolled [fuel] times.  [npending] is
    the content of the variable the wait-read stores into; it is the
    only local that one turn hands to the next.  The loop has no
    [break], so the statements after it (lines 225-228) are never
    reached and have no counterpart here. *)
Fixpoint uio_loop (fuel : nat) (fd iomem npending : Z) : prog Z :=
  match fuel with
  | O => Diverge
  | S fuel' =>
      let en := 1 in
      r <- call (WriteFd fd en (sizeof_long dm));
      let nb := to_size_t dm r in
      if nb <? sizeof_long dm then
        print_error "uio_run" 201 "Unmasking interrupts" [];;
        call (Munmap iomem AXI_GPIO_ADDR_SIZE);;
        call (Close fd);;
        Ret EXIT_FAILURE
      else
        rd <- call (ReadFd fd npending (sizeof_long dm));
        let nb := to_size_t dm (fst rd) in
        let npending := to_ulong dm (snd rd) in
        handle_pending iomem npending;;
        uio_loop fuel' fd iomem npending
  end.

(** [npending] is declared without an initial value. *)
Definition uio_run (fuel : nat) (name : string) : prog Z :=
  npending <- call (Indeterminate "npending");
  DEBUG_PRINT "uio_run" 155 "Opening UIO device /dev/uio0" [];;
  fd <- call (Open name (Z.lor O_RDWR O_SYNC));
  (if fd <? 0 then
     e <- call Strerror;
     print_error "uio_run" 159 "Failure to open /dev/uio0 device - %s"
       [FStr e]
   else Ret tt);;
  m <- call (Mmap AXI_GPIO_ADDR_SIZE (Z.lor PROT_READ PROT_WRITE)
               MAP_SHARED fd);
  match m with
  | None =>
      e <- call Strerror;
      print_error "uio_run" 171 "Failure to map memory - %s" [FStr e];;
      call (Close fd);;
      Ret EXIT_FAILURE
  | Some iomem =>
      DEBUG_PRINT "uio_run" 176 "Initializing AXI GPIO peripheral..." [];;
      write_reg iomem AXI_GPIO_GIER_OFFSET 0;;
      tri <- read_reg dm iomem AXI_GPIO_TRI_OFFSET;
      let tri := Z.lor tri (Z.shiftl 1 0) in
      write_reg iomem AXI_GPIO_TRI_OFFSET tri;;
      ier <- read_reg dm iomem AXI_GPIO_IPIER_OFFSET;
      let ier := Z.lor ier (Z.shiftl 1 0) in
      write_reg iomem AXI_GPIO_IPIER_OFFSET ier;;
      write_reg iomem AXI_GPIO_GIER_OFFSET (AXI_GPIO_GIER_ENABLE dm);;
      call (Usleep (1000 * 50));;
      DEBUG_PRINT "uio_run" 194 "Waiting for interrupt to occur" [];;
      uio_loop fuel fd iomem (to_ulong dm npending)
  end.

End Tester.

(** Lines 246-267.  [inl status]: [main] returns [status] from inside
    the loop; [inr (name, daemonize)]: the loop is left with these
    values of the two variables ([None] is the NULL pointer). *)
Fixpoint parse_args (opts : list getopt_ret) (name : option string)
    (daemonize : Z) : prog (Z + option string * Z) :=
  match opts with
  | [] => Ret (inr (name, daemonize))
  | g :: rest =>
      if opt g =? -1 then Ret (inr (name, daemonize))
      else if opt g =? 100 (* 'd' *) then
        parse_args rest (Some (optarg g)) daemonize
      else if opt g =? 68 (* 'D' *) then
        parse_args rest name 1
      else if opt g =? 63 (* '?' *) then
        (if isprint (optopt g) then
           print_error "main" 257 "Unknown option `-%c'" [FNum (optopt g)]
         else
           print_error "main" 259 "Unknown option character `\\x%x'"
             [FNum (optopt g)]);;
        usage;;
        Ret (inl EXIT_FAILURE)
      else
        usage;;
        Ret (inl EXIT_FAILURE)
  end.

(** Lines 270-281: [if (daemonize) { ... }].  In the parent [fork]
    answers the child's pid, in the child 0.  [err (EXIT_FAILURE, NULL)]
    prints the description of [errno] and exits. *)
Definition maybe_daemonize (daemonize : Z) : prog unit :=
  if daemonize =? 0 then Ret tt
  else
    pid <- call Fork;
    if pid <? 0 then
      print_error "main" 274 "Failed to fork process" [];;
      e <- call Strerror;
      call (Stderr "err" "main" 275 "" [FStr e]);;
      Exit EXIT_FAILURE
    else if 0 <? pid then
      call (Stdout "UIO test daemon starting with PID: %d\n" [FNum pid]);;
      Exit EXIT_SUCCESS
    else Ret tt.

(** [main] ends the process either by returning a status or through
    [exit]; both are [Exit] here.  [daemonize] is declared without an
    initial value. *)
Definition main (cfg : config) (fuel : nat) (opts : list getopt_ret)
    : prog Z :=
  if signal_fails SIGINT then Exit EXIT_FAILURE
  else
    daemonize <- call (Indeterminate "daemonize");
    parsed <- parse_args opts None (to_int daemonize);
    match parsed with
    | inl status => Exit status
    | inr (name, daemonize) =>
        maybe_daemonize daemonize;;
        match name with
        | None => usage;; Exit EXIT_FAILURE
        | Some name =>
            status <- uio_run cfg fuel name;
            Exit status
        end
    end.

(** The run of a program under the handler [main] installs. *)
Definition exec {W : Type} {P : Platform W} {A : Type}
    (p : prog A) (w : W) (sigq : list bool) : list event * outcome W A :=
  run uio_terminate p w sigq.

(** ** A scripted platform

    A platform whose answers are read off a script; the runs of the
    scenarios below are computed on it.  Registers behave as memory,
    except that the interrupt status register clears the bits written
    as 1.  A [write] or [read] beyond the end of its list transfers the
    whole word, and the read then delivers the count 1. *)
Record script : Type := {
  s_open : Z;
  s_mmap : option Z;
  s_writes : list Z;
  s_reads : list (Z * Z);
  s_regs : list (Z * Z);
  s_fork : Z;
  s_errno : list string;
  s_junk : Z
}.

Fixpoint reg_get (regs : list (Z * Z)) (off : Z) : Z :=
  match regs with
  | [] => 0
  | (o, v) :: rest => if o =? off then v else reg_get rest off
  end.

Definition reg_set (s : script) (off val : Z) : script :=
  {| s_open := s_open s; s_mmap := s_mmap s; s_writes := s_writes s;
     s_reads := s_reads s; s_regs := (off, val) :: s_regs s;
     s_fork := s_fork s; s_errno := s_errno s; s_junk := s_junk s |}.

Definition next_write (s : script) (count : Z) : Z * script :=
  match s_writes s with
  | [] => (count, s)
  | r :: rest =>
      (r, {| s_open := s_open s; s_mmap := s_mmap s; s_writes := rest;
             s_reads := s_reads s; s_regs := s_regs s;
             s_fork := s_fork s; s_errno := s_errno s; s_junk := s_junk s |})
  end.

Definition next_read (s : script) (count : Z) : (Z * Z) * script :=
  match s_reads s with
  | [] => ((count, 1), s)
  | r :: rest =>
      (r, {| s_open := s_open s; s_mmap := s_mmap s; s_writes := s_writes s;
             s_reads := rest; s_regs := s_regs s;
             s_fork := s_fork s; s_errno := s_errno s; s_junk := s_junk s |})
  end.

Definition next_errno (s : script) : string * script :=
  match s_errno s with
  | [] => ("Success", s)
  | e :: rest =>
      (e, {| s_open := s_open s; s_mmap := s_mmap s; s_writes := s_writes s;
             s_reads := s_reads s; s_regs := s_regs s;
             s_fork := s_fork s; s_errno := rest; s_junk := s_junk s |})
  end.

Definition script_handle (R : Type) (o : op R) : script -> R * script :=
  match o in op T return script -> T * script with
  | Open _ _ => fun s => (s_open s, s)
  | Mmap _ _ _ _ => fun s => (s_mmap s, s)
  | Munmap _ _ => fun s => (tt, s)
  | Close _ => fun s => (tt, s)
  | WriteFd _ _ count => fun s => next_write s count
  | ReadFd _ _ count => fun s => next_read s count
  | Usleep _ => fun s => (tt, s)
  | Fork => fun s => (s_fork s, s)
  | Strerror => fun s => next_errno s
  | LoadReg _ off => fun s => (reg_get (s_regs s) off, s)
  | StoreReg _ off val =>
      fun s =>
        if off =? AXI_GPIO_IPISR_OFFSET
        then (tt, reg_set s off (Z.ldiff (reg_get (s_regs s) off) val))
        else (tt, reg_set s off val)
  | Stdout _ _ => fun s => (tt, s)
  | Stderr _ _ _ _ _ => fun s => (tt, s)
  | Indeterminate _ => fun s => (s_junk s, s)
  end.

#[export] Instance script_platform : Platform script := script_handle.

(** The default build on the 32-bit target. *)
Definition release : config := {| cfg_model := ILP32; cfg_debug := false |}.

(** A board whose first interrupt is reported with pending count 2, with
    bit 0 of the interrupt status register set. *)
Definition board : script :=
  {| s_open := 3; s_mmap := Some 0x76ff0000; s_writes := [];
     s_reads := [(4, 2)];
     s_regs := [(AXI_GPIO_IPISR_OFFSET, 1); (AXI_GPIO_DATA_OFFSET, 5)];
     s_fork := 0; s_errno := []; s_junk := 0 |}.

(** The device node does not exist: [open] fails with ENOENT, and [mmap]
    on the descriptor -1 with EBADF. *)
Definition no_device : script :=
  {| s_open := -1; s_mmap := None; s_writes := []; s_reads := [];
     s_regs := []; s_fork := 0;
     s_errno := ["No such file or directory"; "Bad file descriptor"];
     s_junk := 0 |}.

(** The device opens but cannot be mapped. *)
Definition no_mapping : script :=
  {| s_open := 3; s_mmap := None; s_writes := []; s_reads := [];
     s_regs := []; s_fork := 0; s_errno := ["Invalid argument"];
     s_junk := 0 |}.

(** The first unmask write transfers [ret] bytes (or fails with -1). *)
Definition unmask_returns (ret : Z) : script :=
  {| s_open := 3; s_mmap := Some 0x76ff0000; s_writes := [ret];
     s_reads := []; s_regs := []; s_fork := 0; s_errno := []; s_junk := 0 |}.

(** Every wait-read returns 0 bytes and leaves the buffer as it was. *)
Definition short_reads : script :=
  {| s_open := 3; s_mmap := Some 0x76ff0000; s_writes := [];
     s_reads := [(0, 0); (0, 0)]; s_regs := []; s_fork := 0;
     s_errno := []; s_junk := 0 |}.

(** [uiotest -d /dev/uio0] and [uiotest -d /dev/uio1] as getopt sees
    them, and a command line with the unknown option [-x]. *)
Definition with_device (path : string) : list getopt_ret :=
  [{| opt := 100; optarg := path; optopt := 0 |}].

Definition unknown_option : list getopt_ret :=
  [{| opt := 63; optarg := ""; optopt := 120 |}].

(** ** What a trace shows *)

(** The result of the first [open] and of the first [mmap] of a trace. *)
Fixpoint opened (tr : list event) : option Z :=
  match tr with
  | [] => None
  | EvOpen _ _ ret :: _ => Some ret
  | _ :: rest => opened rest
  end.

Fixpoint mapped (tr : list event) : option (option Z) :=
  match tr with
  | [] => None
  | EvMmap _ _ _ _ ret :: _ => Some ret
  | _ :: rest => mapped rest
  end.

Definition is_reg_op (e : event) : bool :=
  match e with
  | EvLoad _ _ _ | EvStore _ _ _ => true
  | _ => false
  end.

Definition is_teardown (e : event) : bool :=
  match e with
  | EvMunmap _ _ | EvClose _ => true
  | _ => false
  end.


Definition is_debug (e : event) : bool :=
  match e with
  | EvStderr tag _ _ _ _ => String.eqb tag "DEBUG"
  | _ => false
  end.

(** The unmask write of the loop: the word 1, [word] bytes long, written
    to the descriptor [fd]; and its wait-read: [word] bytes read from
    [fd]. *)
Definition is_unmask (fd word : Z) (e : event) : bool :=
  match e with
  | EvWrite f val count _ => (f =? fd) && (val =? 1) && (count =? word)
  | _ => false
  end.

Definition is_wait (fd word : Z) (e : event) : bool :=
  match e with
  | EvRead f count _ _ => (f =? fd) && (count =? word)
  | _ => false
  end.

Definition reg_ops (tr : list event) : list event := filter is_reg_op tr.
Definition teardown (tr : list event) : list event := filter is_teardown tr.

(** The trace without the output of [DEBUG_PRINT]. *)
Definition release_view (tr : list event) : list event :=
  filter (fun e => negb (is_debug e)) tr.

(** The unmask/wait protocol on the device file [fd]: every [write] of
    the trace is an unmask write on [fd] and every [read] a wait-read on
    [fd]; a wait-read comes only after an unmask write, and no second
    unmask write comes before the wait-read.  [armed] says that an unmask
    write is waiting for its read. *)
Fixpoint unmask_then_wait (fd word : Z) (armed : bool) (tr : list event)
    : bool :=
  match tr with
  | [] => true
  | EvWrite f val count ret :: rest =>
      is_unmask fd word (EvWrite f val count ret)
      && negb armed
      && unmask_then_wait fd word true rest
  | EvRead f count ret buf :: rest =>
      is_wait fd word (EvRead f count ret buf)
      && armed
      && unmask_then_wait fd word false rest
  | _ :: rest => unmask_then_wait fd word armed rest
  end.

(** The state of the protocol after a trace. *)
Fixpoint armed_after (armed : bool) (tr : list event) : bool :=
  match tr with
  | [] => armed
  | EvWrite _ _ _ _ :: rest => armed_after true rest
  | EvRead _ _ _ _ :: rest => armed_after false rest
  | _ :: rest => armed_after armed rest
  end.

(** ** The traces of the parts of [uio_run] *)

Section Traces.
Variable cfg : config.

Local Abbreviation dm := (cfg_model cfg).
Local Abbreviation word := (sizeof_long (cfg_model cfg)).

(** The events of the handling of one interrupt, given the pending
    count and the values the two register reads deliver. *)
Definition handling_trace (iomem npending isr data : Z) : list event :=
  if npending =? 0 then []
  else
    [EvStdout "Interrupt was detected %lu\n" [FNum npending];
     EvLoad iomem AXI_GPIO_IPISR_OFFSET isr]
    ++ (if to_ulong dm isr =? 0 then []
        else [EvStore iomem AXI_GPIO_IPISR_OFFSET (to_ulong dm isr)])
    ++ [EvLoad iomem AXI_GPIO_DATA_OFFSET data]
    ++ (if cfg_debug cfg
        then [EvStderr "DEBUG" "uio_run" 221 "GPIO_DATA: 0x%lx"
                [FNum (to_ulong dm data)]]
        else []).

(** The events of the turn that finds the unmask write short. *)
Definition short_write_trace (fd iomem ret : Z) : list event :=
  [EvWrite fd 1 word ret;
   EvStderr "ERROR" "uio_run" 201 "Unmasking interrupts" [];
   EvMunmap iomem AXI_GPIO_ADDR_SIZE;
   EvClose fd].

Definition debug_trace (line : Z) (fmt : string) : list event :=
  if cfg_debug cfg then [EvStderr "DEBUG" "uio_run" line fmt []] else [].

(** The events of [uio_run] up to the call of [mmap]. *)
Definition open_trace (name : string) (fd : Z) (e : string) : list event :=
  debug_trace 155 "Opening UIO device /dev/uio0"
  ++ [EvOpen name (Z.lor O_RDWR O_SYNC) fd]
  ++ (if fd <? 0
      then [EvStderr "ERROR" "uio_run" 159
              "Failure to open /dev/uio0 device - %s" [FStr e]]
      else []).

Definition mmap_event (fd : Z) (ret : option Z) : event :=
  EvMmap AXI_GPIO_ADDR_SIZE (Z.lor PROT_READ PROT_WRITE) MAP_SHARED fd ret.

(** The register accesses of lines 179-190, given the two values read. *)
Definition init_regs (iomem tri ier : Z) : list event :=
  [EvStore iomem AXI_GPIO_GIER_OFFSET 0;
   EvLoad iomem AXI_GPIO_TRI_OFFSET tri;
   EvStore iomem AXI_GPIO_TRI_OFFSET (Z.lor (to_ulong dm tri) 1);
   EvLoad iomem AXI_GPIO_IPIER_OFFSET ier;
   EvStore iomem AXI_GPIO_IPIER_OFFSET (Z.lor (to_ulong dm ier) 1);
   EvStore iomem AXI_GPIO_GIER_OFFSET (AXI_GPIO_GIER_ENABLE dm)].

(** The events between the successful [mmap] and the loop. *)
Definition init_trace (iomem tri ier : Z) : list event :=
  debug_trace 176 "Initializing AXI GPIO peripheral..."
  ++ init_regs iomem tri ier
  ++ [EvUsleep 50000]
  ++ debug_trace 194 "Waiting for interrupt to occur".

Definition map_failure_trace (fd : Z) (e : string) : list event :=
  [mmap_event fd None;
   EvStderr "ERROR" "uio_run" 171 "Failure to map memory - %s" [FStr e];
   EvClose fd].

End Traces.

(** ** The command line as [main] reads it *)

(** getopt answered ['d'] or ['D']. *)
Definition is_option (g : getopt_ret) : bool :=
  (opt g =? 100) || (opt g =? 68).

(** The argument of the last [-d] of a command line, [name] if there is
    none. *)
Fixpoint last_device (opts : list getopt_ret) (name : option string)
    : option string :=
  match opts with
  | [] => name
  | g :: rest =>
      if opt g =? 100 then last_device rest (Some (optarg g))
      else last_device rest name
  end.

(** The content of [daemonize] after a command line: 1 if it holds a
    [-D], what the variable held before otherwise. *)
Fixpoint daemonize_flag (opts : list getopt_ret) (daemonize : Z) : Z :=
  match opts with
  | [] => daemonize
  | g :: rest =>
      if opt g =? 68 then daemonize_flag rest 1
      else daemonize_flag rest daemonize
  end.

(** What [main] prints for an answer of getopt that is neither ['d'] nor
    ['D']: the diagnostic for ['?'], then the usage text. *)
Definition rejected_option_trace (g : getopt_ret) : list event :=
  (if opt g =? 63 then
     [if isprint (optopt g)
      then EvStderr "ERROR" "main" 257 "Unknown option `-%c'"
             [FNum (optopt g)]
      else EvStderr "ERROR" "main" 259 "Unknown option character `\\x%x'"
             [FNum (optopt g)]]
   else [])
  ++ [EvStdout "Usage: uiotest -d uio_num [-D]\n" []].

(** The end of [main]: the status [uio_run] returns is the exit status of
    the process. *)
Definition exit_with {W : Type} (r : list event * outcome W Z)
    : list event * outcome W Z :=
  match r with
  | (t, Returned status _ _) => (t, Exited status)
  | (t, Exited status) => (t, Exited status)
  | (t, Running) => (t, Running)
  end.

(** [main] after the options are read, when the process goes on to the
    device: usage error without a name, [uio_run] otherwise. *)
Definition device_stage {W : Type} {P : Platform W} (cfg : config)
    (fuel : nat) (name : option string) (w : W)
    : list event * outcome W Z :=
  match name with
  | None =>
      ([EvStdout "Usage: uiotest -d uio_num [-D]\n" []], Exited EXIT_FAILURE)
  | Some path => exit_with (exec (uio_run cfg fuel path) w [])
  end.

(** ** The platform's answers to [open] and [mmap]

    [uio_run] reaches [open] after it has read the unassigned
    [npending] and, in the debug build, written its first debug line;
    [before_open] is the state of the platform at that point.  When
    [open] succeeds nothing lies between it and [mmap]. *)
Definition before_open {W : Type} {P : Platform W} (cfg : config) (w : W)
    : W :=
  let w0 := snd (handle Z (Indeterminate "npending") w) in
  if cfg_debug cfg
  then snd (handle unit
              (Stderr "DEBUG" "uio_run" 155 "Opening UIO device /dev/uio0"
                 [])
              w0)
  else w0.

Definition open_answer {W : Type} {P : Platform W} (cfg : config)
    (name : string) (w : W) : Z * W :=
  handle Z (Open name (Z.lor O_RDWR O_SYNC)) (before_open cfg w).

Definition mmap_answer {W : Type} {P : Platform W} (cfg : config)
    (name : string) (w : W) : option Z * W :=
  handle (option Z)
    (Mmap AXI_GPIO_ADDR_SIZE (Z.lor PROT_READ PROT_WRITE) MAP_SHARED
       (fst (open_answer cfg name w)))
    (snd (open_answer cfg name w)).

(** ** Further readings of a trace *)

Definition uses_device (e : event) : bool :=
  match e with
  | EvMmap _ _ _ _ _ | EvWrite _ _ _ _ | EvRead _ _ _ _
  | EvLoad _ _ _ | EvStore _ _ _ => true
  | _ => false
  end.

(** No access to the device file or to a register once the window was
    unmapped or the descriptor closed.  [released] says that one of the
    two has happened. *)
Fixpoint no_use_after_release (released : bool) (tr : list event) : bool :=
  match tr with
  | [] => true
  | e :: rest =>
      if is_teardown e then no_use_after_release true rest
      else negb (released && uses_device e)
           && no_use_after_release released rest
  end.

(** The calls of [write_reg] the program makes, by their offset and value
    arguments: 0 or the enable word at GIER, a word with bit 0 set at TRI
    and at IPIER, a non-zero word at IPISR.  This reads the arguments of
    the call only; which registers the bytes of the store reach is the
    matter of [covers]. *)
Definition known_store (dm : data_model) (e : event) : bool :=
  match e with
  | EvStore _ off val =>
      ((off =? AXI_GPIO_GIER_OFFSET)
       && ((val =? 0) || (val =? AXI_GPIO_GIER_ENABLE dm)))
      || ((off =? AXI_GPIO_TRI_OFFSET) && Z.testbit val 0)
      || ((off =? AXI_GPIO_IPIER_OFFSET) && Z.testbit val 0)
      || ((off =? AXI_GPIO_IPISR_OFFSET) && negb (val =? 0))
  | _ => true
  end.

(** [write_reg] stores an [unsigned long]: the store at [off] writes the
    bytes [off .. off + sizeof_long dm - 1].  [covers dm off reg] says
    that these meet the 32-bit register at [reg]. *)
Definition covers (dm : data_model) (off reg : Z) : bool :=
  (off <? reg + 4) && (reg <? off + sizeof_long dm).

(** No byte of the store lies in the data register. *)
Definition spares_data (dm : data_model) (e : event) : bool :=
  match e with
  | EvStore _ off _ => negb (covers dm off AXI_GPIO_DATA_OFFSET)
  | _ => true
  end.

(** A store that reaches TRI or IPIER is the store at that register and
    has bit 0 set; a store that reaches IPISR is the store at IPISR and
    is not 0; no store reaches the data register. *)
Definition confined (dm : data_model) (e : event) : bool :=
  match e with
  | EvStore _ off val =>
      negb (covers dm off AXI_GPIO_DATA_OFFSET)
      && (negb (covers dm off AXI_GPIO_TRI_OFFSET)
          || ((off =? AXI_GPIO_TRI_OFFSET) && Z.testbit val 0))
      && (negb (covers dm off AXI_GPIO_IPIER_OFFSET)
          || ((off =? AXI_GPIO_IPIER_OFFSET) && Z.testbit val 0))
      && (negb (covers dm off AXI_GPIO_IPISR_OFFSET)
          || ((off =? AXI_GPIO_IPISR_OFFSET) && negb (val =? 0)))
  | _ => true
  end.

(** The same build with and without [-DDEBUG]. *)
Definition debug_build (dm : data_model) : config :=
  {| cfg_model := dm; cfg_debug := true |}.

Definition release_build (dm : data_model) : config :=
  {| cfg_model := dm; cfg_debug := false |}.

(** Two runs that agree up to debug output. *)
Definition same_but_debug {W A : Type}
    (d r : list event * outcome W A) : Prop :=
  release_view (fst d) = fst r /\ snd d = snd r.

(** [uiotest -D] and [uiotest -d path -D] as getopt sees them. *)
Definition daemon_only : list getopt_ret :=
  [{| opt := 68; optarg := ""; optopt := 0 |}].

Definition daemon_with_device (path : string) : list getopt_ret :=
  [{| opt := 100; optarg := path; optopt := 0 |};
   {| opt := 68; optarg := ""; optopt := 0 |}].

(** The board as the parent of a fork sees it (the child has pid 4711),
    and a board on which [fork] fails. *)
Definition parent_board : script :=
  {| s_open := 3; s_mmap := Some 0x76ff0000; s_writes := [];
     s_reads := [(4, 2)];
     s_regs := [(AXI_GPIO_IPISR_OFFSET, 1); (AXI_GPIO_DATA_OFFSET, 5)];
     s_fork := 4711; s_errno := []; s_junk := 0 |}.

Definition fork_fails : script :=
  {| s_open := 3; s_mmap := Some 0x76ff0000; s_writes := [];
     s_reads := []; s_regs := []; s_fork := -1;
     s_errno := ["Resource temporarily unavailable"]; s_junk := 0 |}.

(** A board without pending interrupt: the wait-read delivers count 0. *)
Definition idle_board : script :=
  {| s_open := 3; s_mmap := Some 0x76ff0000; s_writes := [];
     s_reads := [(4, 0)]; s_regs := []; s_fork := 0; s_errno := [];
     s_junk := 0 |}.

(** ** Stepping through a run *)

(** [answer o w] names the platform's answer to the request [o] in the
    state [w], or uses the answer a hypothesis already gives. *)
Ltac answer o w :=
  match goal with
  | H : handle _ o w = (_, _) |- _ => rewrite H
  | _ =>
      let r := fresh "r" in
      let w' := fresh "w" in
      let E := fresh "E" in
      destruct (handle _ o w) as [r w'] eqn:E
  end.

(** [expose] steps through the requests of a run in which no signal is
    pending, up to the next branch on an answer. *)
Ltac expose :=
  unfold call; cbn [bind app fst snd];
  repeat
    match goal with
    | |- context [run ?h (Do ?o ?k) ?w []] =>
        change (run h (Do o k) w [])
          with (perform o (fun r => run h (k r)) w []);
        unfold perform;
        answer o w;
        cbn [bind app fst snd event_of]
    end.

(** ** Running programs: general facts *)

Section RunFacts.
Context {W : Type} {P : Platform W}.
Variable handler : Z -> option Z.

Lemma run_bind {A B : Type} (p : prog A) (f : A -> prog B) w q :
  run handler (bind p f) w q
  = and_then (run handler p w q) (fun a => run handler (f a)).
Proof.
  revert w q. induction p as [a | R o k IH | s | ]; intros w q; simpl.
  - destruct (run handler (f a) w q); reflexivity.
  - assert (Hperf : forall q0,
      perform o (fun r => run handler (bind (k r) f)) w q0
      = and_then (perform o (fun r => run handler (k r)) w q0)
          (fun a => run handler (f a))).
    { intros q0. unfold perform. destruct (handle R o w) as [r w'].
      rewrite IH. destruct (run handler (k r) w' q0) as [t [a w1 q1 | s | ]];
        simpl; try reflexivity.
      destruct (run handler (f a) w1 q1). rewrite app_assoc. reflexivity. }
    destruct q as [ | [ | ] q'].
    + apply Hperf.
    + destruct (handler SIGINT); [reflexivity | ].
      rewrite Hperf.
      destruct (perform o (fun r => run handler (k r)) w q')
        as [t [a w1 q1 | s | ]]; simpl; try reflexivity.
      destruct (run handler (f a) w1 q1). reflexivity.
    + apply Hperf.
  - reflexivity.
  - reflexivity.
Qed.

(** A run under pending signals either is the run without signals, or
    it is a prefix of that run cut short by the handler's [exit]. *)
Lemma run_interrupted {A : Type} (status : Z) (p : prog A) :
  handler SIGINT = Some status ->
  forall w q,
    (fst (run handler p w q) = fst (run handler p w [])
     /\ same_result (snd (run handler p w q)) (snd (run handler p w [])))
    \/ (exists pre post,
          fst (run handler p w []) = pre ++ post
          /\ fst (run handler p w q) = pre ++ [EvSignal SIGINT]
          /\ snd (run handler p w q) = Exited status).
Proof.
  intros Hh. induction p as [a | R o k IH | s | ]; intros w q.
  - left. simpl. auto.
  - destruct q as [ | [ | ] q'].
    + left. split; [reflexivity | ].
      destruct (snd (run handler (Do o k) w [])); simpl; auto.
    + right. exists [], (fst (run handler (Do o k) w [])).
      simpl. rewrite Hh. simpl. auto.
    + simpl. unfold perform. destruct (handle R o w) as [r w'].
      destruct (IH r w' q') as [[Ht Ho] | (pre & post & Hq & Ht & Ho)].
      * left.
        destruct (run handler (k r) w' q') as [t1 o1].
        destruct (run handler (k r) w' []) as [t2 o2].
        simpl in *. subst t1. auto.
      * right. exists (event_of o r ++ pre), post.
        destruct (run handler (k r) w' q') as [t1 o1].
        destruct (run handler (k r) w' []) as [t2 o2].
        simpl in *. subst. rewrite <- !app_assoc. auto.
  - left. simpl. auto.
  - left. simpl. auto.
Qed.
End RunFacts.

(** ** One turn of the loop *)

Section LoopFacts.
Context {W : Type} {P : Platform W}.
Variable cfg : config.

Local Abbreviation dm := (cfg_model cfg).
Local Abbreviation word := (sizeof_long (cfg_model cfg)).

Lemma handle_pending_quiet (iomem npending : Z) (w : W) :
  exists isr data w',
    exec (handle_pending cfg iomem npending) w []
    = (handling_trace cfg iomem npending isr data, Returned tt w' []).
Proof.
  unfold exec, handle_pending, handling_trace, read_reg, write_reg,
    DEBUG_PRINT.
  destruct (npending =? 0).
  - exists 0, 0, w. reflexivity.
  - expose.
    destruct (to_ulong dm r0 =? 0) eqn:Hisr;
      expose; destruct (cfg_debug cfg); expose;
      cbn [run];
      match goal with
      | H : handle Z (LoadReg _ AXI_GPIO_DATA_OFFSET) _ = (?d, _) |- _ =>
          exists r0, d
      end;
      eexists; rewrite Hisr;
      repeat match goal with u : unit |- _ => destruct u end;
      reflexivity.
Qed.

(** One turn of the loop when no signal is pending. *)
Lemma loop_iteration (fuel : nat) (fd iomem np : Z) (w : W) :
  let wr := handle Z (WriteFd fd 1 word) w in
  let rd := handle (Z * Z)%type (ReadFd fd np word) (snd wr) in
  let npending := to_ulong dm (snd (fst rd)) in
  if to_size_t dm (fst wr) <? word then
    exists w',
      exec (uio_loop cfg (S fuel) fd iomem np) w []
      = (short_write_trace cfg fd iomem (fst wr), Returned EXIT_FAILURE w' [])
  else
    exists isr data w',
      exec (uio_loop cfg (S fuel) fd iomem np) w []
      = prefixed
          (EvWrite fd 1 word (fst wr)
           :: EvRead fd word (fst (fst rd)) (snd (fst rd))
           :: handling_trace cfg iomem npending isr data)
          (exec (uio_loop cfg fuel fd iomem npending) w' []).
Proof.
  intros wr rd npending. subst wr rd npending.
  destruct (handle Z (WriteFd fd 1 word) w) as [r w1] eqn:Ewr.
  cbn [fst snd].
  destruct (handle (Z * Z)%type (ReadFd fd np word) w1)
    as [[ret buf] w2] eqn:Erd.
  cbn [fst snd].
  destruct (to_size_t dm r <? word) eqn:Hshort.
  - unfold exec. cbn [uio_loop]. unfold print_error.
    expose. rewrite Hshort. expose. cbn [run].
    eexists. reflexivity.
  - destruct (handle_pending_quiet iomem (to_ulong dm buf) w2)
      as (isr & data & w' & Hh).
    exists isr, data, w'.
    unfold exec in *. cbn [uio_loop].
    expose. rewrite Hshort. expose.
    rewrite run_bind, Hh. unfold and_then, prefixed.
    destruct (run uio_terminate
                (uio_loop cfg fuel fd iomem (to_ulong dm buf)) w' []).
    reflexivity.
Qed.

(** Handling an interrupt touches neither the device file nor the
    mapping. *)
Lemma handling_no_teardown iomem np isr data t :
  filter is_teardown (handling_trace cfg iomem np isr data ++ t)
  = filter is_teardown t.
Proof.
  unfold handling_trace.
  destruct (np =? 0), (to_ulong dm isr =? 0), (cfg_debug cfg); reflexivity.
Qed.

Lemma handling_no_write fd iomem np isr data t :
  filter (is_unmask fd word) (handling_trace cfg iomem np isr data ++ t)
  = filter (is_unmask fd word) t.
Proof.
  unfold handling_trace.
  destruct (np =? 0), (to_ulong dm isr =? 0), (cfg_debug cfg); reflexivity.
Qed.

Lemma handling_no_read fd iomem np isr data t :
  filter (is_wait fd word) (handling_trace cfg iomem np isr data ++ t)
  = filter (is_wait fd word) t.
Proof.
  unfold handling_trace.
  destruct (np =? 0), (to_ulong dm isr =? 0), (cfg_debug cfg); reflexivity.
Qed.

Lemma handling_keeps_protocol fd iomem np isr data armed t :
  unmask_then_wait fd word armed (handling_trace cfg iomem np isr data ++ t)
  = unmask_then_wait fd word armed t.
Proof.
  unfold handling_trace.
  destruct (np =? 0), (to_ulong dm isr =? 0), (cfg_debug cfg); reflexivity.
Qed.

Lemma is_unmask_write (fd ret : Z) :
  is_unmask fd word (EvWrite fd 1 word ret) = true.
Proof. unfold is_unmask. rewrite !Z.eqb_refl. reflexivity. Qed.

Lemma is_wait_read (fd ret buf : Z) :
  is_wait fd word (EvRead fd word ret buf) = true.
Proof. unfold is_wait. rewrite !Z.eqb_refl. reflexivity. Qed.

(** The loop without signals, by induction on the number of turns. *)
Lemma loop_quiet (fuel : nat) :
  forall fd iomem np (w : W),
    let r := exec (uio_loop cfg fuel fd iomem np) w [] in
    unmask_then_wait fd word false (fst r) = true
    /\ match snd r with
       | Running =>
           teardown (fst r) = []
           /\ List.length (filter (is_unmask fd word) (fst r)) = fuel
           /\ List.length (filter (is_wait fd word) (fst r)) = fuel
       | Returned status _ _ =>
           status = EXIT_FAILURE
           /\ teardown (fst r) = [EvMunmap iomem AXI_GPIO_ADDR_SIZE;
                                  EvClose fd]
           /\ exists pre ret,
                fst r = pre ++ short_write_trace cfg fd iomem ret
                /\ to_size_t dm ret < word
       | Exited _ => False
       end.
Proof.
  induction fuel as [ | fuel IH]; intros fd iomem np w r; subst r.
  - unfold exec. simpl. auto.
  - pose proof (loop_iteration fuel fd iomem np w) as Hit.
    cbv zeta in Hit.
    destruct (to_size_t dm (fst (handle Z (WriteFd fd 1 word) w)) <? word)
      eqn:Hshort.
    + destruct Hit as (w' & ->). cbn [fst snd]. split.
      { unfold short_write_trace. cbn [unmask_then_wait].
        rewrite is_unmask_write. reflexivity. }
      split; [reflexivity | ]. split; [reflexivity | ].
      exists [], (fst (handle Z (WriteFd fd 1 word) w)).
      split; [reflexivity | ]. apply Z.ltb_lt. exact Hshort.
    + destruct Hit as (isr & data & w' & ->). unfold prefixed.
      cbn [fst snd].
      match goal with
      | |- context [exec (uio_loop cfg fuel fd iomem ?n) w' []] =>
          specialize (IH fd iomem n w'); cbv zeta in IH;
          destruct (exec (uio_loop cfg fuel fd iomem n) w' [])
            as [t out]
      end.
      cbn [fst snd] in *. destruct IH as [Hp Hout]. split.
      * cbn [app unmask_then_wait].
        rewrite is_unmask_write, is_wait_read. cbn [negb andb].
        rewrite handling_keeps_protocol. exact Hp.
      * destruct out as [status w1 q1 | status | ].
        -- destruct Hout as (Hs & Ht & pre & ret & Hpre & Hret).
           split; [exact Hs | ]. split.
           ++ cbn [app]. unfold teardown in *. cbn [filter is_teardown].
              rewrite handling_no_teardown. exact Ht.
           ++ eexists (_ :: _ :: _ ++ pre), ret. split; [ | exact Hret].
              rewrite Hpre. cbn [app]. rewrite <- app_assoc. reflexivity.
        -- exact Hout.
        -- destruct Hout as (Ht & Hw & Hr). split; [ | split].
           ++ cbn [app]. unfold teardown in *. cbn [filter is_teardown].
              rewrite handling_no_teardown. exact Ht.
           ++ cbn [app filter]. rewrite is_unmask_write.
              cbn [is_unmask List.length].
              rewrite handling_no_write, Hw. reflexivity.
           ++ cbn [app filter]. rewrite is_wait_read.
              cbn [is_wait List.length].
              rewrite handling_no_read, Hr. reflexivity.
Qed.
End LoopFacts.

(** ** The whole of [uio_run] *)

Section RunShape.
Context {W : Type} {P : Platform W}.
Variable cfg : config.

Local Abbreviation dm := (cfg_model cfg).
Local Abbreviation word := (sizeof_long (cfg_model cfg)).

(** [uio_run] when no signal is pending. *)
Lemma uio_run_quiet (fuel : nat) (name : string) (w : W) :
  exists fd e,
    (exists e' w',
       exec (uio_run cfg fuel name) w []
       = (open_trace cfg name fd e ++ map_failure_trace fd e',
          Returned EXIT_FAILURE w' []))
    \/ (exists iomem tri ier np w',
          exec (uio_run cfg fuel name) w []
          = prefixed
              (open_trace cfg name fd e
               ++ mmap_event fd (Some iomem) :: init_trace cfg iomem tri ier)
              (exec (uio_loop cfg fuel fd iomem np) w' [])).
Proof.
  unfold exec, uio_run, open_trace, init_trace, init_regs, debug_trace,
    map_failure_trace, mmap_event, print_error, DEBUG_PRINT, read_reg,
    write_reg, prefixed.
  expose.
  destruct (cfg_debug cfg); expose;
    match goal with
    | H : handle Z (Open _ _) _ = (?fd, _) |- _ =>
        exists fd; destruct (fd <? 0) eqn:Hfd
    end;
    expose;
    first [ match goal with
            | H : handle string Strerror _ = (?e, _) |- _ => exists e
            end
          | exists "" ];
    match goal with
    | H : handle (option Z) (Mmap _ _ _ _) _ = (?m, _) |- _ =>
        destruct m as [iomem | ]
    end;
    expose;
    repeat match goal with u : unit |- _ => destruct u end;
    cbn [run app];
    first
      [ left; do 2 eexists; reflexivity
      | right;
        match goal with
        | Ht : handle Z (LoadReg _ AXI_GPIO_TRI_OFFSET) _ = (?tri, _),
          Hi : handle Z (LoadReg _ AXI_GPIO_IPIER_OFFSET) _ = (?ier, _)
          |- _ => exists iomem, tri, ier
        end;
        match goal with
        | |- context [run uio_terminate (uio_loop ?c ?f ?a ?b ?n) ?w' []] =>
            exists n, w'; unfold exec;
            destruct (run uio_terminate (uio_loop c f a b n) w' [])
        end;
        reflexivity ].
Qed.
End RunShape.

(** ** The interrupt wait loop *)

Section WaitLoop.
Context {W : Type} {P : Platform W}.
Variable cfg : config.

Local Abbreviation dm := (cfg_model cfg).
Local Abbreviation word := (sizeof_long (cfg_model cfg)).

(** C2: in a turn of the loop whose wait-read delivers a non-zero
    pending count, the interrupt status register is read; when the
    value read is non-zero the same value is written back to that
    register before any other register access; then the data register
    is read, and its value only goes to the debug output.  The turn is
    entered with the platform in an arbitrary state [w], so this covers
    every turn.  The second part is the scenario with pending count 2
    and status 0x1, computed on the scripted platform. *)
Theorem pending_interrupt_is_acknowledged :
  (forall (fuel : nat) (fd iomem np : Z) (w : W),
     let wr := handle Z (WriteFd fd 1 word) w in
     let rd := handle (Z * Z)%type (ReadFd fd np word) (snd wr) in
     let npending := to_ulong dm (snd (fst rd)) in
     (to_size_t dm (fst wr) <? word) = false ->
     npending <> 0 ->
     exists isr data w',
       exec (uio_loop cfg (S fuel) fd iomem np) w []
       = prefixed
           ([EvWrite fd 1 word (fst wr);
             EvRead fd word (fst (fst rd)) (snd (fst rd));
             EvStdout "Interrupt was detected %lu\n" [FNum npending];
             EvLoad iomem AXI_GPIO_IPISR_OFFSET isr]
            ++ (if to_ulong dm isr =? 0 then []
                else [EvStore iomem AXI_GPIO_IPISR_OFFSET
                        (to_ulong dm isr)])
            ++ [EvLoad iomem AXI_GPIO_DATA_OFFSET data]
            ++ (if cfg_debug cfg
                then [EvStderr "DEBUG" "uio_run" 221 "GPIO_DATA: 0x%lx"
                        [FNum (to_ulong dm data)]]
                else []))
           (exec (uio_loop cfg fuel fd iomem npending) w' []))
  /\ exec (uio_run release 1 "/dev/uio0") board []
     = ([EvOpen "/dev/uio0" (Z.lor O_RDWR O_SYNC) 3;
         EvMmap AXI_GPIO_ADDR_SIZE (Z.lor PROT_READ PROT_WRITE) MAP_SHARED
           3 (Some 0x76ff0000);
         EvStore 0x76ff0000 AXI_GPIO_GIER_OFFSET 0;
         EvLoad 0x76ff0000 AXI_GPIO_TRI_OFFSET 0;
         EvStore 0x76ff0000 AXI_GPIO_TRI_OFFSET 1;
         EvLoad 0x76ff0000 AXI_GPIO_IPIER_OFFSET 0;
         EvStore 0x76ff0000 AXI_GPIO_IPIER_OFFSET 1;
         EvStore 0x76ff0000 AXI_GPIO_GIER_OFFSET 0x80000000;
         EvUsleep 50000;
         EvWrite 3 1 4 4;
         EvRead 3 4 4 2;
         EvStdout "Interrupt was detected %lu\n" [FNum 2];
         EvLoad 0x76ff0000 AXI_GPIO_IPISR_OFFSET 1;
         EvStore 0x76ff0000 AXI_GPIO_IPISR_OFFSET 1;
         EvLoad 0x76ff0000 AXI_GPIO_DATA_OFFSET 5],
        Running).
Proof.
  split; [ | reflexivity].
  intros fuel fd iomem np w wr rd npending Hfull Hnp.
  pose proof (loop_iteration cfg fuel fd iomem np w) as Hit.
  cbv zeta in Hit. fold wr in Hit. rewrite Hfull in Hit.
  fold rd in Hit. fold npending in Hit.
  destruct Hit as (isr & data & w' & Hrun).
  exists isr, data, w'. rewrite Hrun.
  unfold handling_trace.
  apply Z.eqb_neq in Hnp. rewrite Hnp. reflexivity.
Qed.

(** C3: in a turn of the loop whose unmask write returns a byte count
    below the word size, the loop ends at once: the error is reported,
    the register window is unmapped, the descriptor is closed and
    [uio_run] returns [EXIT_FAILURE].  No second write is attempted. *)
Theorem short_unmask_write_is_fatal
    (fuel : nat) (fd iomem np : Z) (w : W) (ret : Z) :
  fst (handle Z (WriteFd fd 1 word) w) = ret ->
  0 <= ret < word ->
  exists w',
    exec (uio_loop cfg (S fuel) fd iomem np) w []
    = ([EvWrite fd 1 word ret;
        EvStderr "ERROR" "uio_run" 201 "Unmasking interrupts" [];
        EvMunmap iomem AXI_GPIO_ADDR_SIZE;
        EvClose fd],
       Returned EXIT_FAILURE w' [])
    /\ EXIT_FAILURE <> EXIT_SUCCESS.
Proof.
  intros Hret Hshort.
  pose proof (loop_iteration cfg fuel fd iomem np w) as Hit.
  cbv zeta in Hit. rewrite Hret in Hit.
  assert (Hlt : (to_size_t dm ret <? word) = true).
  { apply Z.ltb_lt. unfold to_size_t.
    rewrite Z.mod_small; [lia | ].
    destruct dm; simpl in *; lia. }
  rewrite Hlt in Hit. destruct Hit as (w' & Hrun).
  exists w'. split; [exact Hrun | discriminate].
Qed.

(** C10: when the unmask write returns -1, the value stored in the
    unsigned [nb] is larger than the word size, the short-write branch
    is not taken, nothing is reported or released, and the turn goes on
    with the wait-read as after a successful unmask. *)
Theorem failed_unmask_write_goes_unnoticed
    (fuel : nat) (fd iomem np : Z) (w : W) :
  let wr := handle Z (WriteFd fd 1 word) w in
  let rd := handle (Z * Z)%type (ReadFd fd np word) (snd wr) in
  let npending := to_ulong dm (snd (fst rd)) in
  fst wr = -1 ->
  word < to_size_t dm (-1)
  /\ (to_size_t dm (-1) <? word) = false
  /\ exists isr data w',
       exec (uio_loop cfg (S fuel) fd iomem np) w []
       = prefixed
           (EvWrite fd 1 word (-1)
            :: EvRead fd word (fst (fst rd)) (snd (fst rd))
            :: handling_trace cfg iomem npending isr data)
           (exec (uio_loop cfg fuel fd iomem npending) w' []).
Proof.
  intros wr rd npending Hret.
  assert (Hbig : word < to_size_t dm (-1)).
  { unfold to_size_t. destruct dm; reflexivity. }
  assert (Hge : (to_size_t dm (-1) <? word) = false).
  { apply Z.ltb_ge. lia. }
  split; [exact Hbig | ]. split; [exact Hge | ].
  pose proof (loop_iteration cfg fuel fd iomem np w) as Hit.
  cbv zeta in Hit. fold wr in Hit. rewrite Hret in Hit.
  rewrite Hge in Hit. exact Hit.
Qed.

Lemma unmask_then_wait_app (fd : Z) (l1 l2 : list event) :
  forall armed,
    unmask_then_wait fd word armed (l1 ++ l2)
    = unmask_then_wait fd word armed l1
      && unmask_then_wait fd word (armed_after armed l1) l2.
Proof.
  induction l1 as [ | e l1 IH]; intros armed; [reflexivity | ].
  destruct e; cbn [app unmask_then_wait armed_after]; rewrite ?IH;
    try reflexivity; rewrite andb_assoc; reflexivity.
Qed.

Lemma unmask_then_wait_cut (fd : Z) (pre post : list event)
    (armed : bool) :
  unmask_then_wait fd word armed (pre ++ post) = true ->
  unmask_then_wait fd word armed (pre ++ [EvSignal SIGINT]) = true.
Proof.
  rewrite !unmask_then_wait_app. intros H.
  apply andb_true_iff in H. destruct H as [H _]. rewrite H. reflexivity.
Qed.

(** C8: on the device file the loop strictly alternates unmask write
    and wait-read, starting with the write: every [write] of the loop
    is the word 1, one word long, written to the descriptor [fd], every
    [read] reads one word from [fd], and between two unmask writes lies
    exactly one wait-read.  Whatever a turn finds, the loop goes on to
    the next unmask write: while it runs, [fuel] turns have made [fuel]
    unmask writes and [fuel] wait-reads.  It is left in two ways only:
    [uio_run] returns [EXIT_FAILURE] after a short unmask write, or
    SIGINT ends the process in the handler.  This holds for every
    arrival of signals. *)
Theorem wait_loop_protocol
    (fuel : nat) (fd iomem np : Z) (w : W) (sigq : list bool) :
  let r := exec (uio_loop cfg fuel fd iomem np) w sigq in
  unmask_then_wait fd word false (fst r) = true
  /\ match snd r with
     | Running =>
         List.length (filter (is_unmask fd word) (fst r)) = fuel
         /\ List.length (filter (is_wait fd word) (fst r)) = fuel
     | Returned status _ _ =>
         status = EXIT_FAILURE
         /\ exists pre ret,
              fst r
              = pre ++ [EvWrite fd 1 word ret;
                        EvStderr "ERROR" "uio_run" 201
                          "Unmasking interrupts" [];
                        EvMunmap iomem AXI_GPIO_ADDR_SIZE;
                        EvClose fd]
              /\ to_size_t dm ret < word
     | Exited status =>
         status = EXIT_SUCCESS
         /\ exists pre, fst r = pre ++ [EvSignal SIGINT]
     end.
Proof.
  intros r. subst r. unfold exec.
  pose proof (loop_quiet cfg fuel fd iomem np w) as Hq.
  cbv zeta in Hq. unfold exec in Hq. destruct Hq as [Hp Hout].
  destruct (run_interrupted uio_terminate EXIT_SUCCESS
              (uio_loop cfg fuel fd iomem np) eq_refl w sigq)
    as [[Ht Ho] | (pre & post & Hpre & Ht & Ho)].
  - rewrite Ht. split; [exact Hp | ].
    destruct (snd (run uio_terminate (uio_loop cfg fuel fd iomem np) w sigq))
      as [s1 w1 q1 | s1 | ];
      destruct (snd (run uio_terminate (uio_loop cfg fuel fd iomem np) w []))
      as [s2 w2 q2 | s2 | ];
      cbn [same_result] in Ho; try contradiction.
    + destruct Ho as [-> _]. destruct Hout as (Hs & _ & Hshort).
      split; [exact Hs | exact Hshort].
    + destruct Hout as (_ & Hw & Hr). split; assumption.
  - rewrite Ht, Ho. split.
    + rewrite Hpre in Hp. apply unmask_then_wait_cut with (post := post).
      exact Hp.
    + split; [reflexivity | ]. exists pre. reflexivity.
Qed.
End WaitLoop.

(** ** Acquisition, initialisation and release *)

Section Lifecycle.
Context {W : Type} {P : Platform W}.
Variable cfg : config.

Local Abbreviation dm := (cfg_model cfg).
Local Abbreviation word := (sizeof_long (cfg_model cfg)).

Lemma opened_app (l1 l2 : list event) :
  opened (l1 ++ l2)
  = match opened l1 with Some fd => Some fd | None => opened l2 end.
Proof.
  induction l1 as [ | e l1 IH]; [reflexivity | ].
  destruct e; cbn [app opened]; auto.
Qed.

Lemma mapped_app (l1 l2 : list event) :
  mapped (l1 ++ l2)
  = match mapped l1 with Some m => Some m | None => mapped l2 end.
Proof.
  induction l1 as [ | e l1 IH]; [reflexivity | ].
  destruct e; cbn [app mapped]; auto.
Qed.

Lemma opened_open_trace name fd e rest :
  opened (open_trace cfg name fd e ++ rest) = Some fd.
Proof.
  unfold open_trace, debug_trace. destruct (cfg_debug cfg); reflexivity.
Qed.

Lemma mapped_open_trace name fd e m rest :
  mapped (open_trace cfg name fd e ++ mmap_event fd m :: rest) = Some m.
Proof.
  unfold open_trace, debug_trace.
  destruct (cfg_debug cfg), (fd <? 0); reflexivity.
Qed.

Lemma reg_ops_before_loop name fd e iomem tri ier :
  reg_ops (open_trace cfg name fd e
           ++ mmap_event fd (Some iomem) :: init_trace cfg iomem tri ier)
  = init_regs cfg iomem tri ier.
Proof.
  unfold open_trace, init_trace, debug_trace.
  destruct (cfg_debug cfg), (fd <? 0); reflexivity.
Qed.

Lemma teardown_before_loop name fd e iomem tri ier rest :
  teardown ((open_trace cfg name fd e
             ++ mmap_event fd (Some iomem) :: init_trace cfg iomem tri ier)
            ++ rest)
  = teardown rest.
Proof.
  unfold open_trace, init_trace, debug_trace.
  destruct (cfg_debug cfg), (fd <? 0); reflexivity.
Qed.

(** [uio_run] without signals when the platform's answer to [open] is
    a descriptor: what follows is decided by its answer to [mmap]. *)
Lemma uio_run_after_open (fuel : nat) (name : string) (w : W) :
  let fd := fst (open_answer cfg name w) in
  0 <= fd ->
  match fst (mmap_answer cfg name w) with
  | None =>
      exists e w',
        exec (uio_run cfg fuel name) w []
        = (open_trace cfg name fd "" ++ map_failure_trace fd e,
           Returned EXIT_FAILURE w' [])
  | Some iomem =>
      exists tri ier np w',
        exec (uio_run cfg fuel name) w []
        = prefixed
            (open_trace cfg name fd ""
             ++ mmap_event fd (Some iomem) :: init_trace cfg iomem tri ier)
            (exec (uio_loop cfg fuel fd iomem np) w' [])
  end.
Proof.
  intros fd Hfd. subst fd. apply Z.ltb_ge in Hfd. revert Hfd.
  unfold mmap_answer, open_answer, before_open.
  unfold exec, uio_run, open_trace, init_trace, init_regs, debug_trace,
    map_failure_trace, mmap_event, print_error, DEBUG_PRINT, read_reg,
    write_reg, prefixed.
  destruct (handle Z (Indeterminate "npending") w) as [junk w0] eqn:Ejunk.
  cbn [fst snd].
  destruct (cfg_debug cfg).
  - destruct (handle unit
                (Stderr "DEBUG" "uio_run" 155 "Opening UIO device /dev/uio0"
                   []) w0) as [[] w1] eqn:Edebug.
    cbn [fst snd].
    destruct (handle Z (Open name (Z.lor O_RDWR O_SYNC)) w1)
      as [fd w2] eqn:Eopen.
    cbn [fst snd].
    destruct (handle (option Z)
                (Mmap AXI_GPIO_ADDR_SIZE (Z.lor PROT_READ PROT_WRITE)
                   MAP_SHARED fd) w2) as [m w3] eqn:Emmap.
    cbn [fst snd]. intros Hfd.
    expose. rewrite Hfd. expose.
    destruct m as [iomem | ]; expose;
      repeat match goal with u : unit |- _ => destruct u end;
      cbn [run app].
    + match goal with
      | Ht : handle Z (LoadReg _ AXI_GPIO_TRI_OFFSET) _ = (?tri, _),
        Hi : handle Z (LoadReg _ AXI_GPIO_IPIER_OFFSET) _ = (?ier, _)
        |- _ => exists tri, ier
      end.
      match goal with
      | |- context [run uio_terminate (uio_loop ?c ?f ?a ?b ?n) ?w' []] =>
          exists n, w';
          destruct (run uio_terminate (uio_loop c f a b n) w' [])
      end.
      reflexivity.
    + do 2 eexists. reflexivity.
  - destruct (handle Z (Open name (Z.lor O_RDWR O_SYNC)) w0)
      as [fd w2] eqn:Eopen.
    cbn [fst snd].
    destruct (handle (option Z)
                (Mmap AXI_GPIO_ADDR_SIZE (Z.lor PROT_READ PROT_WRITE)
                   MAP_SHARED fd) w2) as [m w3] eqn:Emmap.
    cbn [fst snd]. intros Hfd.
    expose. rewrite Hfd. expose.
    destruct m as [iomem | ]; expose;
      repeat match goal with u : unit |- _ => destruct u end;
      cbn [run app].
    + match goal with
      | Ht : handle Z (LoadReg _ AXI_GPIO_TRI_OFFSET) _ = (?tri, _),
        Hi : handle Z (LoadReg _ AXI_GPIO_IPIER_OFFSET) _ = (?ier, _)
        |- _ => exists tri, ier
      end.
      match goal with
      | |- context [run uio_terminate (uio_loop ?c ?f ?a ?b ?n) ?w' []] =>
          exists n, w';
          destruct (run uio_terminate (uio_loop c f a b n) w' [])
      end.
      reflexivity.
    + do 2 eexists. reflexivity.
Qed.

(** C1: when the platform answers [open] with a descriptor and [mmap]
    with a mapping, [uio_run] opens the path, maps the window and then,
    before the wait loop is entered, makes exactly these register
    accesses in this order: store 0 to GIER; load TRI and store it back
    with bit 0 set; load IPIER and store it back with bit 0 set; store
    GIER with bit 31, its enable bit, set.  The run is this prefix
    followed by the run of the loop on that descriptor and mapping. *)
Theorem init_sequence_order
    (fuel : nat) (name : string) (w : W) (iomem : Z) :
  let fd := fst (open_answer cfg name w) in
  0 <= fd ->
  fst (mmap_answer cfg name w) = Some iomem ->
  exists tri ier pre np w',
    exec (uio_run cfg fuel name) w []
    = prefixed pre (exec (uio_loop cfg fuel fd iomem np) w' [])
    /\ release_view pre
       = [EvOpen name (Z.lor O_RDWR O_SYNC) fd;
          EvMmap AXI_GPIO_ADDR_SIZE (Z.lor PROT_READ PROT_WRITE) MAP_SHARED
            fd (Some iomem);
          EvStore iomem AXI_GPIO_GIER_OFFSET 0;
          EvLoad iomem AXI_GPIO_TRI_OFFSET tri;
          EvStore iomem AXI_GPIO_TRI_OFFSET (Z.lor (to_ulong dm tri) 1);
          EvLoad iomem AXI_GPIO_IPIER_OFFSET ier;
          EvStore iomem AXI_GPIO_IPIER_OFFSET (Z.lor (to_ulong dm ier) 1);
          EvStore iomem AXI_GPIO_GIER_OFFSET (AXI_GPIO_GIER_ENABLE dm);
          EvUsleep 50000]
    /\ reg_ops pre
       = [EvStore iomem AXI_GPIO_GIER_OFFSET 0;
          EvLoad iomem AXI_GPIO_TRI_OFFSET tri;
          EvStore iomem AXI_GPIO_TRI_OFFSET (Z.lor (to_ulong dm tri) 1);
          EvLoad iomem AXI_GPIO_IPIER_OFFSET ier;
          EvStore iomem AXI_GPIO_IPIER_OFFSET (Z.lor (to_ulong dm ier) 1);
          EvStore iomem AXI_GPIO_GIER_OFFSET (AXI_GPIO_GIER_ENABLE dm)]
    /\ Z.testbit (Z.lor (to_ulong dm tri) 1) 0 = true
    /\ Z.testbit (Z.lor (to_ulong dm ier) 1) 0 = true
    /\ Z.testbit (AXI_GPIO_GIER_ENABLE dm) 31 = true.
Proof.
  intros fd Hfd Hmap.
  pose proof (uio_run_after_open fuel name w Hfd) as Hrun.
  rewrite Hmap in Hrun. fold fd in Hrun.
  destruct Hrun as (tri & ier & np & w' & Hrun).
  exists tri, ier. eexists. exists np, w'.
  split; [exact Hrun | ].
  assert (Hopen : (fd <? 0) = false) by (apply Z.ltb_ge; exact Hfd).
  split.
  { unfold release_view, open_trace, init_trace, init_regs, debug_trace,
      mmap_event.
    rewrite Hopen. destruct (cfg_debug cfg); reflexivity. }
  split; [apply reg_ops_before_loop | ].
  repeat split.
  - rewrite Z.lor_spec. apply orb_true_r.
  - rewrite Z.lor_spec. apply orb_true_r.
  - destruct dm; reflexivity.
Qed.

(** C7: when the platform answers [open] with a descriptor and [mmap]
    with [MAP_FAILED], [uio_run] reports the mapping failure, closes the
    descriptor, and returns [EXIT_FAILURE]; the descriptor is closed
    once, nothing is unmapped and no register is accessed. *)
Theorem map_failure_closes_descriptor
    (fuel : nat) (name : string) (w : W) :
  let fd := fst (open_answer cfg name w) in
  let r := exec (uio_run cfg fuel name) w [] in
  0 <= fd ->
  fst (mmap_answer cfg name w) = None ->
  exists e w',
    release_view (fst r)
    = [EvOpen name (Z.lor O_RDWR O_SYNC) fd;
       EvMmap AXI_GPIO_ADDR_SIZE (Z.lor PROT_READ PROT_WRITE) MAP_SHARED
         fd None;
       EvStderr "ERROR" "uio_run" 171 "Failure to map memory - %s" [FStr e];
       EvClose fd]
    /\ snd r = Returned EXIT_FAILURE w' []
    /\ teardown (fst r) = [EvClose fd]
    /\ reg_ops (fst r) = [].
Proof.
  intros fd r Hfd Hmap. subst r.
  pose proof (uio_run_after_open fuel name w Hfd) as Hrun.
  rewrite Hmap in Hrun. fold fd in Hrun.
  destruct Hrun as (e & w' & Hrun). rewrite Hrun.
  exists e, w'.
  assert (Hopen : (fd <? 0) = false) by (apply Z.ltb_ge; exact Hfd).
  cbn [fst snd].
  unfold release_view, teardown, reg_ops, open_trace, debug_trace,
    map_failure_trace, mmap_event.
  rewrite Hopen. destruct (cfg_debug cfg); repeat split; reflexivity.
Qed.

(** After a failed [open] the run goes on: the diagnostic has a fixed
    text, and the negative descriptor is the one handed to [mmap]. *)
Lemma open_failure_reaches_mmap
    (fuel : nat) (name : string) (w : W) (fd : Z) :
  let r := exec (uio_run cfg fuel name) w [] in
  opened (fst r) = Some fd ->
  fd < 0 ->
  exists e m rest,
    release_view (fst r)
    = EvOpen name (Z.lor O_RDWR O_SYNC) fd
      :: EvStderr "ERROR" "uio_run" 159
           "Failure to open /dev/uio0 device - %s" [FStr e]
      :: mmap_event fd m
      :: rest.
Proof.
  intros r Hopen Hfd. subst r. apply Z.ltb_lt in Hfd.
  destruct (uio_run_quiet cfg fuel name w)
    as (fd0 & e & [(e' & w' & Hrun) | (m & tri & ier & np & w' & Hrun)]);
    rewrite Hrun in *; unfold prefixed in *; cbn [fst] in *;
    rewrite <- ?app_assoc in Hopen; rewrite opened_open_trace in Hopen;
    injection Hopen as ->; exists e.
  - exists None. unfold release_view, open_trace, debug_trace,
      map_failure_trace. rewrite Hfd.
    destruct (cfg_debug cfg); eexists; reflexivity.
  - exists (Some m). unfold release_view, open_trace, debug_trace.
    rewrite Hfd. rewrite <- !app_assoc.
    destruct (cfg_debug cfg); eexists; reflexivity.
Qed.

Lemma uio_run_quiet_teardown
    (fuel : nat) (name : string) (w : W) (fd iomem : Z) :
  let r := exec (uio_run cfg fuel name) w [] in
  opened (fst r) = Some fd ->
  mapped (fst r) = Some (Some iomem) ->
  match snd r with
  | Returned status _ _ =>
      status = EXIT_FAILURE
      /\ teardown (fst r) = [EvMunmap iomem AXI_GPIO_ADDR_SIZE; EvClose fd]
  | Running => teardown (fst r) = []
  | Exited _ => False
  end.
Proof.
  intros r Hopen Hmap. subst r.
  destruct (uio_run_quiet cfg fuel name w)
    as (fd0 & e & [(e' & w' & Hrun) | (m & tri & ier & np & w' & Hrun)]);
    rewrite Hrun in *.
  - cbn [fst] in Hmap. unfold map_failure_trace in Hmap.
    cbn [app] in Hmap. rewrite mapped_open_trace in Hmap. discriminate.
  - unfold prefixed in *. cbn [fst snd] in *.
    rewrite teardown_before_loop.
    rewrite <- app_assoc in Hopen, Hmap. cbn [app] in Hopen, Hmap.
    rewrite opened_open_trace in Hopen.
    rewrite mapped_open_trace in Hmap.
    injection Hopen as ->. injection Hmap as ->.
    pose proof (loop_quiet cfg fuel fd iomem np w') as Hq.
    cbv zeta in Hq. destruct Hq as [_ Hq].
    destruct (snd (exec (uio_loop cfg fuel fd iomem np) w' []))
      as [status w1 q1 | status | ].
    + destruct Hq as (Hs & Ht & _). split; assumption.
    + exact Hq.
    + destruct Hq as (Ht & _). exact Ht.
Qed.

(** C6, as amended: once the descriptor is open and the window mapped,
    every run in which [uio_run] returns has unmapped the window and
    then closed the descriptor, each exactly once, and returns
    [EXIT_FAILURE]; and in every run, whatever its end and whenever
    SIGINT arrives, the releases made so far are an initial part of that
    pair, so nothing is released twice. *)
Theorem teardown_once_when_returning
    (fuel : nat) (name : string) (w : W) (sigq : list bool)
    (fd iomem : Z) :
  let r := exec (uio_run cfg fuel name) w sigq in
  opened (fst r) = Some fd ->
  mapped (fst r) = Some (Some iomem) ->
  (forall status w' q',
     snd r = Returned status w' q' ->
     status = EXIT_FAILURE
     /\ teardown (fst r) = [EvMunmap iomem AXI_GPIO_ADDR_SIZE; EvClose fd])
  /\ exists rest,
       teardown (fst r) ++ rest
       = [EvMunmap iomem AXI_GPIO_ADDR_SIZE; EvClose fd].
Proof.
  intros r Hopen Hmap. subst r.
  pose proof (uio_run_quiet_teardown fuel name w fd iomem) as Hq.
  cbv zeta in Hq. unfold exec in *.
  destruct (run_interrupted uio_terminate EXIT_SUCCESS
              (uio_run cfg fuel name) eq_refl w sigq)
    as [[Ht Ho] | (pre & post & Hpre & Ht & Ho)].
  - rewrite Ht in *. specialize (Hq Hopen Hmap).
    destruct (snd (run uio_terminate (uio_run cfg fuel name) w sigq))
      as [s1 w1 q1 | s1 | ];
      destruct (snd (run uio_terminate (uio_run cfg fuel name) w []))
      as [s2 w2 q2 | s2 | ];
      cbn [same_result] in Ho; try contradiction.
    + destruct Ho as [-> _]. destruct Hq as [Hs Htd]. split.
      * intros status w' q' Heq. injection Heq as <- _ _. auto.
      * exists []. rewrite app_nil_r. exact Htd.
    + split; [intros ? ? ? Heq; discriminate | ].
      rewrite Hq. eexists. reflexivity.
  - rewrite Ht, Ho in *. split; [intros ? ? ? Heq; discriminate | ].
    rewrite opened_app in Hopen. rewrite mapped_app in Hmap.
    cbn [opened mapped] in Hopen, Hmap.
    rewrite Hpre, opened_app, mapped_app in Hq.
    destruct (opened pre) as [fd1 | ]; [ | discriminate].
    destruct (mapped pre) as [m1 | ]; [ | discriminate].
    specialize (Hq Hopen Hmap).
    unfold teardown in *. rewrite filter_app in *.
    cbn [filter is_teardown]. rewrite app_nil_r.
    destruct (snd (run uio_terminate (uio_run cfg fuel name) w []))
      as [s2 w2 q2 | s2 | ].
    + destruct Hq as [_ Htd]. eexists. exact Htd.
    + contradiction.
    + apply app_eq_nil in Hq. destruct Hq as [-> _].
      eexists. reflexivity.
Qed.



End Lifecycle.

(** ** Runs on the scripted platform *)

(** C4 (the code departs from the claim): the device node /dev/uio1
    does not exist.  The diagnostic names /dev/uio0, not the path that
    was given; [uio_run] does not return after it but passes the
    descriptor -1 to [mmap] and, when that fails, to [close].  The
    process ends with [EXIT_FAILURE] only through the mapping failure. *)
Theorem open_failure_falls_through :
  exec (main release 1 (with_device "/dev/uio1")) no_device []
  = ([EvOpen "/dev/uio1" (Z.lor O_RDWR O_SYNC) (-1);
      EvStderr "ERROR" "uio_run" 159 "Failure to open /dev/uio0 device - %s"
        [FStr "No such file or directory"];
      EvMmap AXI_GPIO_ADDR_SIZE (Z.lor PROT_READ PROT_WRITE) MAP_SHARED
        (-1) None;
      EvStderr "ERROR" "uio_run" 171 "Failure to map memory - %s"
        [FStr "Bad file descriptor"];
      EvClose (-1)],
     Exited EXIT_FAILURE).
Proof. reflexivity. Qed.

(** C5 (the code departs from the claim): every wait-read returns 0
    bytes.  The return value is stored in [nb] and never looked at: no
    error is reported, nothing is released, and the loop goes on to the
    next unmask write; after two turns it is still running. *)
Theorem short_wait_read_is_ignored :
  exec (uio_run release 2 "/dev/uio0") short_reads []
  = ([EvOpen "/dev/uio0" (Z.lor O_RDWR O_SYNC) 3;
      EvMmap AXI_GPIO_ADDR_SIZE (Z.lor PROT_READ PROT_WRITE) MAP_SHARED
        3 (Some 0x76ff0000);
      EvStore 0x76ff0000 AXI_GPIO_GIER_OFFSET 0;
      EvLoad 0x76ff0000 AXI_GPIO_TRI_OFFSET 0;
      EvStore 0x76ff0000 AXI_GPIO_TRI_OFFSET 1;
      EvLoad 0x76ff0000 AXI_GPIO_IPIER_OFFSET 0;
      EvStore 0x76ff0000 AXI_GPIO_IPIER_OFFSET 1;
      EvStore 0x76ff0000 AXI_GPIO_GIER_OFFSET 0x80000000;
      EvUsleep 50000;
      EvWrite 3 1 4 4;
      EvRead 3 4 0 0;
      EvWrite 3 1 4 4;
      EvRead 3 4 0 0],
     Running).
Proof. reflexivity. Qed.

(** C6, as stated, fails: SIGINT arrives while the process waits in the
    first wait-read, after the descriptor was opened and the window
    mapped.  The handler ends the process with [EXIT_SUCCESS]; the window
    was not unmapped and the descriptor was not closed. *)
Lemma sigint_exit_skips_teardown :
  let r := exec (main release 1 (with_device "/dev/uio0")) board
             (repeat false 12 ++ [true]) in
  opened (fst r) = Some 3
  /\ mapped (fst r) = Some (Some 0x76ff0000)
  /\ snd r = Exited EXIT_SUCCESS
  /\ teardown (fst r) = []
  /\ teardown (fst r) <> [EvMunmap 0x76ff0000 AXI_GPIO_ADDR_SIZE; EvClose 3].
Proof.
  cbv zeta. repeat split; try reflexivity.
  vm_compute. discriminate.
Qed.

(** C1 on the scripted board: [open] answers the descriptor 3 and
    [mmap] the window at 0x76ff0000. *)
Lemma init_sequence_order_witness :
  0 <= fst (open_answer release "/dev/uio0" board)
  /\ fst (mmap_answer release "/dev/uio0" board) = Some 0x76ff0000
  /\ exists tri ier pre np w',
       exec (uio_run release 1 "/dev/uio0") board []
       = prefixed pre (exec (uio_loop release 1 3 0x76ff0000 np) w' [])
       /\ release_view pre
          = [EvOpen "/dev/uio0" (Z.lor O_RDWR O_SYNC) 3;
             EvMmap AXI_GPIO_ADDR_SIZE (Z.lor PROT_READ PROT_WRITE)
               MAP_SHARED 3 (Some 0x76ff0000);
             EvStore 0x76ff0000 AXI_GPIO_GIER_OFFSET 0;
             EvLoad 0x76ff0000 AXI_GPIO_TRI_OFFSET tri;
             EvStore 0x76ff0000 AXI_GPIO_TRI_OFFSET
               (Z.lor (to_ulong ILP32 tri) 1);
             EvLoad 0x76ff0000 AXI_GPIO_IPIER_OFFSET ier;
             EvStore 0x76ff0000 AXI_GPIO_IPIER_OFFSET
               (Z.lor (to_ulong ILP32 ier) 1);
             EvStore 0x76ff0000 AXI_GPIO_GIER_OFFSET
               (AXI_GPIO_GIER_ENABLE ILP32);
             EvUsleep 50000]
       /\ reg_ops pre = init_regs release 0x76ff0000 tri ier
       /\ Z.testbit (Z.lor (to_ulong ILP32 tri) 1) 0 = true
       /\ Z.testbit (Z.lor (to_ulong ILP32 ier) 1) 0 = true
       /\ Z.testbit (AXI_GPIO_GIER_ENABLE ILP32) 31 = true.
Proof.
  assert (Hfd : 0 <= fst (open_answer release "/dev/uio0" board))
    by (vm_compute; discriminate).
  assert (Hmap : fst (mmap_answer release "/dev/uio0" board)
                 = Some 0x76ff0000) by reflexivity.
  split; [exact Hfd | ]. split; [exact Hmap | ].
  exact (init_sequence_order release 1 "/dev/uio0" board 0x76ff0000
           Hfd Hmap).
Defined.

(** C2 on the scripted board: the first wait-read reports 2 pending
    interrupts. *)
Lemma pending_interrupt_is_acknowledged_witness :
  let wr := handle Z (WriteFd 3 1 4) board in
  let rd := handle (Z * Z)%type (ReadFd 3 0 4) (snd wr) in
  (to_size_t ILP32 (fst wr) <? 4) = false
  /\ to_ulong ILP32 (snd (fst rd)) <> 0
  /\ exists isr data w',
       exec (uio_loop release 1 3 0x76ff0000 0) board []
       = prefixed
           ([EvWrite 3 1 4 4;
             EvRead 3 4 4 2;
             EvStdout "Interrupt was detected %lu\n" [FNum 2];
             EvLoad 0x76ff0000 AXI_GPIO_IPISR_OFFSET isr]
            ++ (if to_ulong ILP32 isr =? 0 then []
                else [EvStore 0x76ff0000 AXI_GPIO_IPISR_OFFSET
                        (to_ulong ILP32 isr)])
            ++ [EvLoad 0x76ff0000 AXI_GPIO_DATA_OFFSET data])
           (exec (uio_loop release 0 3 0x76ff0000 2) w' []).
Proof.
  intros wr rd.
  assert (Hfull : (to_size_t ILP32 (fst wr) <? 4) = false) by reflexivity.
  assert (Hnp : to_ulong ILP32 (snd (fst rd)) <> 0)
    by (vm_compute; discriminate).
  split; [exact Hfull | ]. split; [exact Hnp | ].
  exact (proj1 (pending_interrupt_is_acknowledged release)
           0%nat 3 0x76ff0000 0 board Hfull Hnp).
Defined.

(** C3 when the unmask write transfers 2 of the 4 bytes. *)
Lemma short_unmask_write_is_fatal_witness :
  fst (handle Z (WriteFd 3 1 4) (unmask_returns 2)) = 2
  /\ 0 <= 2 < 4
  /\ exists w',
       exec (uio_loop release 1 3 0x76ff0000 0) (unmask_returns 2) []
       = ([EvWrite 3 1 4 2;
           EvStderr "ERROR" "uio_run" 201 "Unmasking interrupts" [];
           EvMunmap 0x76ff0000 AXI_GPIO_ADDR_SIZE;
           EvClose 3],
          Returned EXIT_FAILURE w' [])
       /\ EXIT_FAILURE <> EXIT_SUCCESS.
Proof.
  assert (Hret : fst (handle Z (WriteFd 3 1 4) (unmask_returns 2)) = 2)
    by reflexivity.
  assert (Hshort : 0 <= 2 < 4) by lia.
  split; [exact Hret | ]. split; [exact Hshort | ].
  exact (short_unmask_write_is_fatal release 0 3 0x76ff0000 0
           (unmask_returns 2) 2 Hret Hshort).
Defined.

(** C10 when the unmask write fails with -1. *)
Lemma failed_unmask_write_goes_unnoticed_witness :
  fst (handle Z (WriteFd 3 1 4) (unmask_returns (-1))) = -1
  /\ 4 < to_size_t ILP32 (-1)
  /\ (to_size_t ILP32 (-1) <? 4) = false
  /\ exists isr data w',
       exec (uio_loop release 1 3 0x76ff0000 0) (unmask_returns (-1)) []
       = prefixed
           (EvWrite 3 1 4 (-1) :: EvRead 3 4 4 1
            :: handling_trace release 0x76ff0000 1 isr data)
           (exec (uio_loop release 0 3 0x76ff0000 1) w' []).
Proof.
  assert (Hret : fst (handle Z (WriteFd 3 1 4) (unmask_returns (-1))) = -1)
    by reflexivity.
  split; [exact Hret | ].
  exact (failed_unmask_write_goes_unnoticed release 0 3 0x76ff0000 0
           (unmask_returns (-1)) Hret).
Defined.

(** C6, as amended, on the run that ends with a short unmask write. *)
Lemma teardown_once_when_returning_witness :
  let r := exec (uio_run release 1 "/dev/uio0") (unmask_returns 2) [] in
  opened (fst r) = Some 3
  /\ mapped (fst r) = Some (Some 0x76ff0000)
  /\ (forall status w' q',
        snd r = Returned status w' q' ->
        status = EXIT_FAILURE
        /\ teardown (fst r)
           = [EvMunmap 0x76ff0000 AXI_GPIO_ADDR_SIZE; EvClose 3])
  /\ exists rest,
       teardown (fst r) ++ rest
       = [EvMunmap 0x76ff0000 AXI_GPIO_ADDR_SIZE; EvClose 3].
Proof.
  intros r.
  assert (Hopen : opened (fst r) = Some 3) by reflexivity.
  assert (Hmap : mapped (fst r) = Some (Some 0x76ff0000)) by reflexivity.
  split; [exact Hopen | ]. split; [exact Hmap | ].
  exact (teardown_once_when_returning release 1 "/dev/uio0"
           (unmask_returns 2) [] 3 0x76ff0000 Hopen Hmap).
Defined.

(** C7 on a device that opens but cannot be mapped. *)
Lemma map_failure_closes_descriptor_witness :
  let r := exec (uio_run release 1 "/dev/uio0") no_mapping [] in
  0 <= fst (open_answer release "/dev/uio0" no_mapping)
  /\ fst (mmap_answer release "/dev/uio0" no_mapping) = None
  /\ exists e w',
       release_view (fst r)
       = [EvOpen "/dev/uio0" (Z.lor O_RDWR O_SYNC) 3;
          EvMmap AXI_GPIO_ADDR_SIZE (Z.lor PROT_READ PROT_WRITE) MAP_SHARED
            3 None;
          EvStderr "ERROR" "uio_run" 171 "Failure to map memory - %s"
            [FStr e];
          EvClose 3]
       /\ snd r = Returned EXIT_FAILURE w' []
       /\ teardown (fst r) = [EvClose 3]
       /\ reg_ops (fst r) = [].
Proof.
  intros r.
  assert (Hfd : 0 <= fst (open_answer release "/dev/uio0" no_mapping))
    by (vm_compute; discriminate).
  assert (Hmap : fst (mmap_answer release "/dev/uio0" no_mapping) = None)
    by reflexivity.
  split; [exact Hfd | ]. split; [exact Hmap | ].
  exact (map_failure_closes_descriptor release 1 "/dev/uio0" no_mapping
           Hfd Hmap).
Defined.


(** ** The command line and the daemon *)

Section CommandLine.
Context {W : Type} {P : Platform W}.
Variable cfg : config.

Lemma option_is_not_end (g : getopt_ret) :
  is_option g = true -> (opt g =? -1) = false.
Proof.
  unfold is_option. intros H. apply orb_true_iff in H.
  destruct H as [H | H]; apply Z.eqb_eq in H; rewrite H; reflexivity.
Qed.

(** Reading options asks nothing of the platform. *)
Lemma parse_args_options (opts : list getopt_ret) :
  forallb is_option opts = true ->
  forall name daemonize (w : W) q,
    exec (parse_args opts name daemonize) w q
    = ([], Returned (inr (last_device opts name,
                          daemonize_flag opts daemonize)) w q).
Proof.
  induction opts as [ | g rest IH]; intros Hopts name daemonize w q.
  - reflexivity.
  - cbn [forallb] in Hopts. apply andb_true_iff in Hopts.
    destruct Hopts as [Hg Hrest].
    cbn [parse_args last_device daemonize_flag].
    unfold is_option in Hg. apply orb_true_iff in Hg.
    destruct Hg as [Hg | Hg]; apply Z.eqb_eq in Hg; rewrite Hg;
      cbn [Z.eqb Pos.eqb]; apply IH; exact Hrest.
Qed.

Lemma parse_args_rejects (pre : list getopt_ret) (g : getopt_ret)
    (rest : list getopt_ret) :
  forallb is_option pre = true ->
  (opt g =? -1) || is_option g = false ->
  forall name daemonize (w : W),
    exists w',
      exec (parse_args (pre ++ g :: rest) name daemonize) w []
      = (rejected_option_trace g, Returned (inl EXIT_FAILURE) w' []).
Proof.
  intros Hpre Hg. induction pre as [ | p pre IH];
    intros name daemonize w.
  - apply orb_false_iff in Hg. destruct Hg as [Hend Hg].
    unfold is_option in Hg. apply orb_false_iff in Hg.
    destruct Hg as [Hd HD].
    cbn [app parse_args]. rewrite Hend, Hd, HD.
    unfold exec, rejected_option_trace, print_error, usage.
    destruct (opt g =? 63); [destruct (isprint (optopt g)) | ];
      expose; cbn [run]; eexists; reflexivity.
  - cbn [forallb] in Hpre. apply andb_true_iff in Hpre.
    destruct Hpre as [Hp Hpre]. specialize (IH Hpre).
    cbn [app parse_args].
    unfold is_option in Hp. apply orb_true_iff in Hp.
    destruct Hp as [Hp | Hp]; apply Z.eqb_eq in Hp; rewrite Hp;
      cbn [Z.eqb Pos.eqb]; apply IH.
Qed.

(** X1: an answer of getopt other than ['d'] and ['D'] ends [main] at
    once, whatever came before it on the command line, a [-d] included:
    the diagnostic for an unknown option, the usage text, exit status
    [EXIT_FAILURE]; the process neither forks nor touches the device. *)
Theorem rejected_option_ends_main
    (fuel : nat) (pre : list getopt_ret) (g : getopt_ret)
    (rest : list getopt_ret) (w : W) :
  forallb is_option pre = true ->
  (opt g =? -1) || is_option g = false ->
  exec (main cfg fuel (pre ++ g :: rest)) w []
  = (rejected_option_trace g, Exited EXIT_FAILURE).
Proof.
  intros Hpre Hg. unfold exec, main.
  change (signal_fails SIGINT) with false. cbv iota.
  expose. rewrite run_bind.
  destruct (parse_args_rejects pre g rest Hpre Hg None (to_int r) w0)
    as (w' & Hrun).
  unfold exec in Hrun. rewrite Hrun. unfold and_then. cbn [run].
  rewrite app_nil_r. reflexivity.
Qed.

Lemma device_stage_run (fuel : nat) (name : option string) (w : W) :
  run uio_terminate
    match name with
    | None => usage;; Exit EXIT_FAILURE
    | Some path => status <- uio_run cfg fuel path; Exit status
    end w []
  = device_stage cfg fuel name w.
Proof.
  unfold device_stage. destruct name as [path | ].
  - rewrite run_bind. unfold exec, and_then, exit_with.
    destruct (run uio_terminate (uio_run cfg fuel path) w [])
      as [t [status w' q | status | ]]; cbn [run];
      rewrite ?app_nil_r; reflexivity.
  - unfold usage. expose. cbn [run]. reflexivity.
Qed.

(** X2: without the daemon, [main] is [uio_run] on the path of the last
    [-d]: the same events, and the status [uio_run] returns is the exit
    status of the process.  (The daemon is off when the command line has
    no [-D] and the unassigned [daemonize] happens to hold 0.) *)
Theorem main_runs_last_device
    (fuel : nat) (opts : list getopt_ret) (w : W) (path : string) :
  let junk := handle Z (Indeterminate "daemonize") w in
  forallb is_option opts = true ->
  daemonize_flag opts (to_int (fst junk)) = 0 ->
  last_device opts None = Some path ->
  exec (main cfg fuel opts) w []
  = exit_with (exec (uio_run cfg fuel path) (snd junk) []).
Proof.
  intros junk Hopts Hflag Hname. subst junk. unfold exec at 1, main.
  change (signal_fails SIGINT) with false. cbv iota.
  expose. cbn [fst snd] in *. rewrite run_bind.
  pose proof (parse_args_options opts Hopts None (to_int r) w0 []) as Hrun.
  unfold exec in Hrun. rewrite Hrun. unfold and_then.
  rewrite Hflag. unfold maybe_daemonize. cbn [Z.eqb bind].
  rewrite device_stage_run. rewrite Hname. unfold device_stage, exec.
  destruct (exit_with (run uio_terminate (uio_run cfg fuel path) w0 [])).
  reflexivity.
Qed.

(** X3: with the daemon on, [main] forks before it looks at the name.
    The parent reports the child's pid and exits with [EXIT_SUCCESS]; a
    failed fork is reported twice and ends with [EXIT_FAILURE]; neither
    touches the device.  The child goes on alone: to the usage error if
    no [-d] was given, to [uio_run] otherwise. *)
Theorem daemon_forks_before_device
    (fuel : nat) (opts : list getopt_ret) (w : W) :
  let junk := handle Z (Indeterminate "daemonize") w in
  let child := handle Z Fork (snd junk) in
  let pid := fst child in
  forallb is_option opts = true ->
  daemonize_flag opts (to_int (fst junk)) <> 0 ->
  if pid <? 0 then
    exists e,
      exec (main cfg fuel opts) w []
      = ([EvFork pid;
          EvStderr "ERROR" "main" 274 "Failed to fork process" [];
          EvStderr "err" "main" 275 "" [FStr e]],
         Exited EXIT_FAILURE)
  else if 0 <? pid then
    exec (main cfg fuel opts) w []
    = ([EvFork pid;
        EvStdout "UIO test daemon starting with PID: %d\n" [FNum pid]],
       Exited EXIT_SUCCESS)
  else
    exec (main cfg fuel opts) w []
    = prefixed [EvFork pid]
        (device_stage cfg fuel (last_device opts None) (snd child)).
Proof.
  intros junk child pid Hopts Hflag. subst pid child junk.
  unfold exec, main.
  change (signal_fails SIGINT) with false. cbv iota.
  expose. cbn [fst snd] in *. rewrite run_bind.
  pose proof (parse_args_options opts Hopts None (to_int r) w0 []) as Hrun.
  unfold exec in Hrun. rewrite Hrun. unfold and_then.
  apply Z.eqb_neq in Hflag. unfold maybe_daemonize. rewrite Hflag.
  unfold print_error. expose. cbn [fst snd].
  destruct (r0 <? 0).
  - expose. cbn [run]. eexists. reflexivity.
  - destruct (0 <? r0).
    + expose. cbn [run]. reflexivity.
    + cbn [bind]. rewrite device_stage_run. unfold prefixed.
      destruct (device_stage cfg fuel (last_device opts None) w1).
      reflexivity.
Qed.

End CommandLine.

(** ** What the program never does *)

Section Never.
Context {W : Type} {P : Platform W}.
Variable cfg : config.

Local Abbreviation dm := (cfg_model cfg).
Local Abbreviation word := (sizeof_long (cfg_model cfg)).

(** X4: a turn whose wait-read delivers the pending count 0 is silent:
    after the unmask write and the wait-read nothing is printed and no
    register is read or written, and the platform is handed unchanged to
    the next turn. *)
Theorem zero_pending_count_is_ignored
    (fuel : nat) (fd iomem np : Z) (w : W) :
  let wr := handle Z (WriteFd fd 1 word) w in
  let rd := handle (Z * Z)%type (ReadFd fd np word) (snd wr) in
  (to_size_t dm (fst wr) <? word) = false ->
  to_ulong dm (snd (fst rd)) = 0 ->
  exec (uio_loop cfg (S fuel) fd iomem np) w []
  = prefixed
      [EvWrite fd 1 word (fst wr);
       EvRead fd word (fst (fst rd)) (snd (fst rd))]
      (exec (uio_loop cfg fuel fd iomem 0) (snd rd) []).
Proof.
  intros wr rd Hfull Hzero. subst rd wr.
  destruct (handle Z (WriteFd fd 1 word) w) as [r w1] eqn:Ewr.
  cbn [fst snd] in *.
  destruct (handle (Z * Z)%type (ReadFd fd np word) w1)
    as [[ret buf] w2] eqn:Erd.
  cbn [fst snd] in *.
  unfold exec. cbn [uio_loop]. expose. rewrite Hfull. expose.
  rewrite Hzero. unfold handle_pending. cbn [Z.eqb bind].
  unfold prefixed.
  destruct (run uio_terminate (uio_loop cfg fuel fd iomem 0) w2 []).
  reflexivity.
Qed.

(** A property of single events that every event of a turn has holds
    for the whole trace of the loop. *)
Lemma loop_events_all (ok : event -> bool) (fd iomem : Z) :
  (forall r, ok (EvWrite fd 1 word r) = true) ->
  (forall ret buf, ok (EvRead fd word ret buf) = true) ->
  (forall np isr data,
     forallb ok (handling_trace cfg iomem np isr data) = true) ->
  (forall r, forallb ok (short_write_trace cfg fd iomem r) = true) ->
  forall fuel np (w : W),
    forallb ok (fst (exec (uio_loop cfg fuel fd iomem np) w [])) = true.
Proof.
  intros Hw Hr Hh Hs. induction fuel as [ | fuel IH]; intros np w.
  - reflexivity.
  - pose proof (loop_iteration cfg fuel fd iomem np w) as Hit.
    cbv zeta in Hit.
    destruct (to_size_t dm (fst (handle Z (WriteFd fd 1 word) w)) <? word).
    + destruct Hit as (w' & ->). cbn [fst]. apply Hs.
    + destruct Hit as (isr & data & w' & ->). unfold prefixed.
      cbn [fst app forallb]. rewrite Hw, Hr, forallb_app, Hh, IH.
      reflexivity.
Qed.

Lemma forallb_cut (ok : event -> bool) (pre post : list event) :
  ok (EvSignal SIGINT) = true ->
  forallb ok (pre ++ post) = true ->
  forallb ok (pre ++ [EvSignal SIGINT]) = true.
Proof.
  intros Hsig H. rewrite forallb_app in *.
  apply andb_true_iff in H. destruct H as [-> _].
  cbn [forallb andb]. rewrite Hsig. reflexivity.
Qed.

Lemma set_bit_0 (x : Z) : Z.testbit (Z.lor x 1) 0 = true.
Proof. rewrite Z.lor_spec. apply orb_true_r. Qed.

Lemma stores_of_handling iomem np isr data :
  forallb (known_store dm) (handling_trace cfg iomem np isr data) = true.
Proof.
  unfold handling_trace.
  destruct (np =? 0); [reflexivity | ].
  destruct (to_ulong dm isr =? 0) eqn:Hisr;
    destruct (cfg_debug cfg); cbn [app forallb known_store];
    rewrite ?Hisr; reflexivity.
Qed.

Lemma stores_before_loop name fd e iomem tri ier :
  forallb (known_store dm)
    (open_trace cfg name fd e
     ++ mmap_event fd (Some iomem) :: init_trace cfg iomem tri ier)
  = true.
Proof.
  unfold open_trace, init_trace, init_regs, debug_trace.
  destruct (cfg_model cfg), (cfg_debug cfg), (fd <? 0);
    cbn [app forallb known_store mmap_event];
    rewrite !set_bit_0; reflexivity.
Qed.

Lemma known_stores (fuel : nat) (name : string) (w : W)
    (sigq : list bool) :
  forallb (known_store dm) (fst (exec (uio_run cfg fuel name) w sigq))
  = true.
Proof.
  assert (Hquiet : forallb (known_store dm)
                     (fst (exec (uio_run cfg fuel name) w [])) = true).
  { destruct (uio_run_quiet cfg fuel name w)
      as (fd & e & [(e' & w' & ->) | (m & tri & ier & np & w' & ->)]).
    - cbn [fst]. unfold open_trace, debug_trace, map_failure_trace.
      destruct (cfg_debug cfg), (fd <? 0); reflexivity.
    - unfold prefixed. cbn [fst].
      rewrite forallb_app, stores_before_loop.
      apply loop_events_all; try reflexivity.
      intros; apply stores_of_handling. }
  unfold exec in *.
  destruct (run_interrupted uio_terminate EXIT_SUCCESS
              (uio_run cfg fuel name) eq_refl w sigq)
    as [[-> _] | (pre & post & Hpre & -> & _)].
  - exact Hquiet.
  - rewrite Hpre in Hquiet.
    apply forallb_cut with (post := post); [reflexivity | exact Hquiet].
Qed.

(** The four offsets the program stores at. *)
Lemma known_store_offset (m : data_model) base off val :
  known_store m (EvStore base off val) = true ->
  (off = AXI_GPIO_GIER_OFFSET
   /\ (val =? 0) || (val =? AXI_GPIO_GIER_ENABLE m) = true)
  \/ (off = AXI_GPIO_TRI_OFFSET /\ Z.testbit val 0 = true)
  \/ (off = AXI_GPIO_IPIER_OFFSET /\ Z.testbit val 0 = true)
  \/ (off = AXI_GPIO_IPISR_OFFSET /\ (val =? 0) = false).
Proof.
  cbn [known_store]. intros H.
  repeat (apply orb_true_iff in H; destruct H as [H | H]);
    apply andb_true_iff in H; destruct H as [Hoff Hval];
    apply Z.eqb_eq in Hoff.
  - left. auto.
  - right. left. auto.
  - right. right. left. auto.
  - right. right. right. apply negb_true_iff in Hval. auto.
Qed.

Lemma known_store_spares_data (m : data_model) (e : event) :
  known_store m e = true -> spares_data m e = true.
Proof.
  destruct e; try reflexivity. intros H.
  apply known_store_offset in H.
  destruct H as [[-> _] | [[-> _] | [[-> _] | [-> _]]]];
    destruct m; reflexivity.
Qed.

Lemma known_store_confined (e : event) :
  known_store ILP32 e = true -> confined ILP32 e = true.
Proof.
  destruct e; try reflexivity. intros H.
  apply known_store_offset in H.
  destruct H as [[-> _] | [[-> Hv] | [[-> Hv] | [-> Hv]]]];
    cbn [confined]; rewrite ?Hv; reflexivity.
Qed.

Lemma forallb_impl (p q : event -> bool) (l : list event) :
  (forall e, p e = true -> q e = true) ->
  forallb p l = true -> forallb q l = true.
Proof.
  intros Hpq H. rewrite forallb_forall in *. auto.
Qed.

(** X5: every call of [write_reg] in [uio_run] has one of four forms:
    0 or the enable word at GIER, a word with bit 0 set at TRI or at
    IPIER, a non-zero word at IPISR.  With the width of the store taken
    into account: on both data models no byte of the data register is
    ever written; and on ILP32, where a store is four bytes wide, a
    store reaches the direction or the interrupt enable register only
    with bit 0 set and the status register only with a non-zero word.
    (On LP64 the eight bytes of a store at GIER reach the status
    register as well, so nothing of that kind is stated there.)  This
    holds on every platform and for every arrival of signals. *)
Theorem stores_are_setup_or_acknowledge
    (fuel : nat) (name : string) (w : W) (sigq : list bool) :
  let tr := fst (exec (uio_run cfg fuel name) w sigq) in
  forallb (known_store dm) tr = true
  /\ forallb (spares_data dm) tr = true
  /\ match dm with
     | ILP32 => forallb (confined ILP32) tr = true
     | LP64 => True
     end.
Proof.
  intros tr. subst tr.
  pose proof (known_stores fuel name w sigq) as Hknown.
  split; [exact Hknown | ]. split.
  - apply forallb_impl with (p := known_store dm); [ | exact Hknown].
    apply known_store_spares_data.
  - destruct dm; [ | exact I].
    apply forallb_impl with (p := known_store ILP32); [ | exact Hknown].
    apply known_store_confined.
Qed.

Lemma release_app_clean (l r : list event) :
  filter is_teardown l = [] ->
  no_use_after_release false (l ++ r) = no_use_after_release false r.
Proof.
  induction l as [ | e l IH]; intros Hl; [reflexivity | ].
  cbn [filter] in Hl. cbn [app no_use_after_release].
  destruct (is_teardown e); [discriminate | ].
  cbn [andb negb]. apply IH. exact Hl.
Qed.

Lemma release_cut (pre post : list event) :
  forall released,
    no_use_after_release released (pre ++ post) = true ->
    no_use_after_release released (pre ++ [EvSignal SIGINT]) = true.
Proof.
  induction pre as [ | e pre IH]; intros released H;
    [destruct released; reflexivity | ].
  cbn [app no_use_after_release] in *.
  destruct (is_teardown e); [apply IH; exact H | ].
  apply andb_true_iff in H. destruct H as [-> H].
  cbn [andb]. apply IH. exact H.
Qed.

(** X6: in no run of [uio_run] is the device used after it was
    released: once the window is unmapped or the descriptor closed, no
    register is read or written and the device file is neither written,
    read nor mapped.  This holds on every platform, on the error paths
    and for every arrival of signals. *)
Theorem nothing_used_after_release
    (fuel : nat) (name : string) (w : W) (sigq : list bool) :
  no_use_after_release false (fst (exec (uio_run cfg fuel name) w sigq))
  = true.
Proof.
  assert (Hquiet : no_use_after_release false
                     (fst (exec (uio_run cfg fuel name) w [])) = true).
  { destruct (uio_run_quiet cfg fuel name w)
      as (fd & e & [(e' & w' & ->) | (m & tri & ier & np & w' & ->)]).
    - cbn [fst]. unfold open_trace, debug_trace, map_failure_trace.
      destruct (cfg_debug cfg), (fd <? 0); reflexivity.
    - unfold prefixed. cbn [fst]. rewrite release_app_clean.
      2:{ pose proof (teardown_before_loop cfg name fd e m tri ier [])
            as Hclean.
          rewrite app_nil_r in Hclean. exact Hclean. }
      pose proof (loop_quiet cfg fuel fd m np w') as Hloop.
      cbv zeta in Hloop. destruct Hloop as [_ Hloop].
      destruct (snd (exec (uio_loop cfg fuel fd m np) w' []))
        as [status w1 q1 | status | ].
      + destruct Hloop as (_ & Htd & pre & ret & Hpre & _).
        rewrite Hpre in *. unfold teardown in Htd.
        rewrite filter_app in Htd.
        change (filter is_teardown (short_write_trace cfg fd m ret))
          with [EvMunmap m AXI_GPIO_ADDR_SIZE; EvClose fd] in Htd.
        rewrite <- (app_nil_l [EvMunmap m AXI_GPIO_ADDR_SIZE; EvClose fd])
          in Htd at 2.
        apply app_inv_tail in Htd.
        rewrite release_app_clean by exact Htd. reflexivity.
      + contradiction.
      + destruct Hloop as (Htd & _).
        rewrite <- (app_nil_r (fst _)).
        rewrite release_app_clean by exact Htd. reflexivity. }
  unfold exec in *.
  destruct (run_interrupted uio_terminate EXIT_SUCCESS
              (uio_run cfg fuel name) eq_refl w sigq)
    as [[-> _] | (pre & post & Hpre & -> & _)].
  - exact Hquiet.
  - rewrite Hpre in Hquiet. apply release_cut with (post := post).
    exact Hquiet.
Qed.

End Never.

(** ** How the process ends *)

Section ExitStatus.
Context {W : Type} {P : Platform W}.
Variable cfg : config.

Lemma parse_args_quiet (opts : list getopt_ret) :
  forall name daemonize (w : W),
    (exists tr w',
       exec (parse_args opts name daemonize) w []
       = (tr, Returned (inl EXIT_FAILURE) w' []))
    \/ (exists name' daemonize',
          exec (parse_args opts name daemonize) w []
          = ([], Returned (inr (name', daemonize')) w [])).
Proof.
  induction opts as [ | g rest IH]; intros name daemonize w.
  - right. do 2 eexists. reflexivity.
  - cbn [parse_args].
    destruct (opt g =? -1); [right; do 2 eexists; reflexivity | ].
    destruct (opt g =? 100); [apply IH | ].
    destruct (opt g =? 68); [apply IH | ].
    left. unfold exec, print_error, usage.
    destruct (opt g =? 63); [destruct (isprint (optopt g)) | ];
      expose; cbn [run]; do 2 eexists; reflexivity.
Qed.

(** Without signals [uio_run] returns [EXIT_FAILURE] or is still in the
    loop, behind a successful [mmap]. *)
Lemma uio_run_quiet_outcome (fuel : nat) (name : string) (w : W) :
  let r := exec (uio_run cfg fuel name) w [] in
  match snd r with
  | Returned status _ _ => status = EXIT_FAILURE
  | Running => exists iomem, mapped (fst r) = Some (Some iomem)
  | Exited _ => False
  end.
Proof.
  intros r. subst r.
  destruct (uio_run_quiet cfg fuel name w)
    as (fd & e & [(e' & w' & ->) | (m & tri & ier & np & w' & ->)]).
  - reflexivity.
  - unfold prefixed. cbn [fst snd].
    pose proof (loop_quiet cfg fuel fd m np w') as Hloop.
    cbv zeta in Hloop. destruct Hloop as [_ Hloop].
    destruct (snd (exec (uio_loop cfg fuel fd m np) w' []))
      as [status w1 q1 | status | ].
    + destruct Hloop as [Hs _]. exact Hs.
    + exact Hloop.
    + exists m. rewrite <- app_assoc. cbn [app].
      apply mapped_open_trace.
Qed.

Lemma device_stage_outcome (fuel : nat) (name : option string) (w : W) :
  let r := device_stage cfg fuel name w in
  match snd r with
  | Returned _ _ _ => False
  | Running => exists iomem, mapped (fst r) = Some (Some iomem)
  | Exited status => status = EXIT_FAILURE
  end.
Proof.
  intros r. subst r. unfold device_stage.
  destruct name as [path | ]; [ | reflexivity].
  pose proof (uio_run_quiet_outcome fuel path w) as Hrun.
  cbv zeta in Hrun. unfold exit_with.
  destruct (exec (uio_run cfg fuel path) w [])
    as [t [status w' q | status | ]]; cbn [fst snd] in *;
    [exact Hrun | contradiction | exact Hrun].
Qed.

Lemma main_quiet_outcome (fuel : nat) (opts : list getopt_ret) (w : W) :
  let r := exec (main cfg fuel opts) w [] in
  match snd r with
  | Returned _ _ _ => False
  | Running => exists iomem, mapped (fst r) = Some (Some iomem)
  | Exited status =>
      status = EXIT_FAILURE
      \/ (status = EXIT_SUCCESS
          /\ exists pid,
               0 < pid
               /\ fst r
                  = [EvFork pid;
                     EvStdout "UIO test daemon starting with PID: %d\n"
                       [FNum pid]])
  end.
Proof.
  intros r. subst r. unfold exec, main.
  change (signal_fails SIGINT) with false. cbv iota.
  expose. rewrite run_bind.
  destruct (parse_args_quiet opts None (to_int r) w0)
    as [(tr & w' & Hrun) | (name' & daemonize' & Hrun)];
    unfold exec in Hrun; rewrite Hrun; unfold and_then.
  - cbn [run snd]. left. reflexivity.
  - unfold maybe_daemonize, print_error.
    destruct (daemonize' =? 0).
    + cbn [bind]. rewrite device_stage_run.
      pose proof (device_stage_outcome fuel name' w0) as Hdev.
      cbv zeta in Hdev.
      destruct (device_stage cfg fuel name' w0)
        as [t [status w' q | status | ]]; cbn [fst snd app] in *;
        [contradiction | left; exact Hdev | exact Hdev].
    + expose. destruct (r0 <? 0).
      * expose. cbn [run snd]. left. reflexivity.
      * destruct (0 <? r0) eqn:Hpid.
        -- expose. cbn [run fst snd]. right. split; [reflexivity | ].
           exists r0. split; [apply Z.ltb_lt; exact Hpid | reflexivity].
        -- cbn [bind]. rewrite device_stage_run.
           pose proof (device_stage_outcome fuel name' w1) as Hdev.
           cbv zeta in Hdev.
           destruct (device_stage cfg fuel name' w1)
             as [t [status w' q | status | ]]; cbn [fst snd app] in *;
             [contradiction | left; exact Hdev | ].
           destruct Hdev as [iomem Hmap]. exists iomem. exact Hmap.
Qed.

(** X7: the process never ends with a status other than [EXIT_SUCCESS]
    and [EXIT_FAILURE], and it ends with [EXIT_SUCCESS] in two cases
    only: SIGINT reached the handler, or the process is the parent of
    the daemon and has printed the child's pid.  Every other end - a
    command line error, a failed fork, [open] or [mmap], a short unmask
    write - is [EXIT_FAILURE].  A process that has not ended is in the
    wait loop, behind a successful [mmap].  This holds for every command
    line, platform and arrival of signals. *)
Theorem success_only_by_sigint_or_parent
    (fuel : nat) (opts : list getopt_ret) (w : W) (sigq : list bool) :
  let r := exec (main cfg fuel opts) w sigq in
  match snd r with
  | Returned _ _ _ => False
  | Running => exists iomem, mapped (fst r) = Some (Some iomem)
  | Exited status =>
      status = EXIT_FAILURE
      \/ (status = EXIT_SUCCESS
          /\ ((exists pre, fst r = pre ++ [EvSignal SIGINT])
              \/ exists pid,
                   0 < pid
                   /\ fst r
                      = [EvFork pid;
                         EvStdout "UIO test daemon starting with PID: %d\n"
                           [FNum pid]]))
  end.
Proof.
  intros r. subst r.
  pose proof (main_quiet_outcome fuel opts w) as Hquiet.
  cbv zeta in Hquiet. unfold exec in *.
  destruct (run_interrupted uio_terminate EXIT_SUCCESS
              (main cfg fuel opts) eq_refl w sigq)
    as [[Ht Ho] | (pre & post & Hpre & Ht & Ho)].
  - rewrite Ht.
    destruct (snd (run uio_terminate (main cfg fuel opts) w sigq))
      as [s1 w1 q1 | s1 | ];
      destruct (snd (run uio_terminate (main cfg fuel opts) w []))
      as [s2 w2 q2 | s2 | ];
      cbn [same_result] in Ho; try contradiction.
    + subst s2. destruct Hquiet as [Hs | [Hs Hpid]];
        [left; exact Hs | right; split; [exact Hs | right; exact Hpid]].
    + exact Hquiet.
  - rewrite Ht, Ho. right. split; [reflexivity | ].
    left. exists pre. reflexivity.
Qed.

(** X8: SIGINT, whenever it arrives, ends the process with
    [EXIT_SUCCESS] and nothing more is done: the run is an initial part
    of the run without signals, cut at the signal.  A run that no signal
    reaches is the run without signals.  So an interrupted run reports
    success even where the uninterrupted one would have gone on to fail,
    and no cleanup is added. *)
Theorem sigint_cuts_the_run
    (fuel : nat) (opts : list getopt_ret) (w : W) (sigq : list bool) :
  let r := exec (main cfg fuel opts) w sigq in
  let quiet := exec (main cfg fuel opts) w [] in
  (fst r = fst quiet /\ same_result (snd r) (snd quiet))
  \/ (exists pre post,
        fst quiet = pre ++ post
        /\ fst r = pre ++ [EvSignal SIGINT]
        /\ snd r = Exited EXIT_SUCCESS).
Proof.
  intros r quiet. subst r quiet. unfold exec.
  apply run_interrupted. unfold uio_terminate.
  rewrite Z.eqb_refl. reflexivity.
Qed.

End ExitStatus.

(** ** The debug build *)

Section DebugBuild.
Context {W : Type} {P : Platform W}.
Variable model : data_model.

(** Writing a debug line does not change what the platform answers
    afterwards. *)
Hypothesis debug_output_is_inert :
  forall func line fmt args (w : W),
    handle unit (Stderr "DEBUG" func line fmt args) w = (tt, w).

Lemma quiet_run_stays_quiet {A : Type} (p : prog A) :
  forall (w : W) t a w' q,
    run uio_terminate p w [] = (t, Returned a w' q) -> q = [].
Proof.
  induction p as [a0 | R o k IH | s | ]; intros w t a w' q Hrun;
    cbn [run] in Hrun.
  - injection Hrun as _ _ _ <-. reflexivity.
  - unfold perform in Hrun. destruct (handle R o w) as [r w1].
    destruct (run uio_terminate (k r) w1 []) as [t1 o1] eqn:Hk.
    injection Hrun as _ ->. apply (IH r w1 t1 a w' q Hk).
  - discriminate.
  - discriminate.
Qed.

(** [expose], with the answer to a debug line known. *)
Ltac expose_debug :=
  unfold call; cbn [bind app fst snd];
  repeat
    match goal with
    | |- context [run ?h (Do ?o ?k) ?w []] =>
        change (run h (Do o k) w [])
          with (perform o (fun r => run h (k r)) w []);
        unfold perform;
        first [rewrite debug_output_is_inert | answer o w];
        cbn [bind app fst snd event_of]
    end.

Lemma handle_pending_debug (iomem npending : Z) (w : W) :
  same_but_debug
    (exec (handle_pending (debug_build model) iomem npending) w [])
    (exec (handle_pending (release_build model) iomem npending) w []).
Proof.
  unfold same_but_debug, exec, handle_pending, read_reg, write_reg,
    DEBUG_PRINT.
  cbn [cfg_model cfg_debug debug_build release_build].
  destruct (npending =? 0); [split; reflexivity | ].
  expose_debug. destruct (to_ulong model r0 =? 0); expose_debug;
    cbn [run app fst snd]; split; reflexivity.
Qed.

Lemma uio_loop_debug (fuel : nat) :
  forall fd iomem np (w : W),
    same_but_debug
      (exec (uio_loop (debug_build model) fuel fd iomem np) w [])
      (exec (uio_loop (release_build model) fuel fd iomem np) w []).
Proof.
  induction fuel as [ | fuel IH]; intros fd iomem np w.
  - split; reflexivity.
  - unfold same_but_debug, exec. cbn [uio_loop]. unfold print_error.
    cbn [cfg_model cfg_debug debug_build release_build].
    expose_debug.
    destruct (to_size_t model r <? sizeof_long model).
    + expose_debug. cbn [run fst snd]. split; reflexivity.
    + expose_debug. rewrite !run_bind.
      pose proof (handle_pending_debug iomem (to_ulong model (snd r0)) w1)
        as [Ht Ho].
      unfold exec in Ht, Ho.
      destruct (run uio_terminate
                  (handle_pending (debug_build model) iomem
                     (to_ulong model (snd r0))) w1 [])
        as [td od] eqn:Hd.
      destruct (run uio_terminate
                  (handle_pending (release_build model) iomem
                     (to_ulong model (snd r0))) w1 [])
        as [tr or].
      cbn [fst snd] in Ht, Ho. subst tr or. unfold and_then.
      destruct od as [[] w2 q | status | ].
      * apply quiet_run_stays_quiet in Hd. subst q.
        destruct (IH fd iomem (to_ulong model (snd r0)) w2) as [Ht Ho].
        unfold exec in Ht, Ho.
        destruct (run uio_terminate
                    (uio_loop (debug_build model) fuel fd iomem
                       (to_ulong model (snd r0))) w2 []) as [t1 o1].
        destruct (run uio_terminate
                    (uio_loop (release_build model) fuel fd iomem
                       (to_ulong model (snd r0))) w2 []) as [t2 o2].
        cbn [fst snd] in *. subst t2 o2. unfold release_view.
        cbn [filter is_debug negb]. rewrite filter_app.
        split; reflexivity.
      * cbn [fst snd]. split; reflexivity.
      * cbn [fst snd]. split; reflexivity.
Qed.

(** X9: compiling with [-DDEBUG] changes nothing but the debug lines.
    On a platform whose later answers do not depend on the debug lines
    written, the run of [uio_run] in the debug build, with the debug
    lines left out, is event for event the run of the release build, and
    both end in the same way. *)
Theorem debug_build_only_adds_output
    (fuel : nat) (name : string) (w : W) :
  same_but_debug
    (exec (uio_run (debug_build model) fuel name) w [])
    (exec (uio_run (release_build model) fuel name) w []).
Proof.
  unfold same_but_debug, exec, uio_run, print_error, DEBUG_PRINT, read_reg,
    write_reg.
  cbn [cfg_model cfg_debug debug_build release_build].
  expose_debug.
  destruct (r0 <? 0); expose_debug;
    match goal with
    | H : handle (option Z) (Mmap _ _ _ _) _ = (?m, _) |- _ =>
        destruct m as [iomem | ]
    end;
    expose_debug; cbn [run fst snd]; try (split; reflexivity).
  all: match goal with
       | |- context [run uio_terminate
                       (uio_loop (debug_build ?dm) ?n ?fd ?m ?np) ?w' []] =>
           destruct (uio_loop_debug n fd m np w') as [Ht Ho];
           unfold exec in Ht, Ho;
           destruct (run uio_terminate
                       (uio_loop (debug_build dm) n fd m np) w' [])
             as [t1 o1];
           destruct (run uio_terminate
                       (uio_loop (release_build dm) n fd m np) w' [])
             as [t2 o2]
       end;
    cbn [fst snd] in *; subst t2 o2; split; reflexivity.
Qed.

End DebugBuild.

(** X9 on the scripted board, whose answers do not depend on what was
    printed. *)
Lemma debug_build_only_adds_output_witness :
  (forall func line fmt args (w : script),
     handle unit (Stderr "DEBUG" func line fmt args) w = (tt, w))
  /\ same_but_debug
       (exec (uio_run (debug_build ILP32) 2 "/dev/uio0") board [])
       (exec (uio_run (release_build ILP32) 2 "/dev/uio0") board []).
Proof.
  assert (Hinert : forall func line fmt args (w : script),
            handle unit (Stderr "DEBUG" func line fmt args) w = (tt, w))
    by (intros; reflexivity).
  split; [exact Hinert | ].
  exact (debug_build_only_adds_output ILP32 Hinert 2 "/dev/uio0" board).
Defined.

(** X1 on [uiotest -d /dev/uio0 -x]. *)
Lemma rejected_option_ends_main_witness :
  forallb is_option (with_device "/dev/uio0") = true
  /\ (opt {| opt := 63; optarg := ""; optopt := 120 |} =? -1)
     || is_option {| opt := 63; optarg := ""; optopt := 120 |} = false
  /\ exec (main release 1 (with_device "/dev/uio0" ++ unknown_option))
       board []
     = ([EvStderr "ERROR" "main" 257 "Unknown option `-%c'" [FNum 120];
         EvStdout "Usage: uiotest -d uio_num [-D]\n" []],
        Exited EXIT_FAILURE).
Proof.
  assert (Hpre : forallb is_option (with_device "/dev/uio0") = true)
    by reflexivity.
  assert (Hg : (opt {| opt := 63; optarg := ""; optopt := 120 |} =? -1)
               || is_option {| opt := 63; optarg := ""; optopt := 120 |}
               = false)
    by reflexivity.
  split; [exact Hpre | ]. split; [exact Hg | ].
  exact (rejected_option_ends_main release 1 (with_device "/dev/uio0")
           {| opt := 63; optarg := ""; optopt := 120 |} [] board Hpre Hg).
Defined.

(** X2 on [uiotest -d /dev/uio0 -d /dev/uio1]. *)
Lemma main_runs_last_device_witness :
  let opts := with_device "/dev/uio0" ++ with_device "/dev/uio1" in
  let junk := handle Z (Indeterminate "daemonize") board in
  forallb is_option opts = true
  /\ daemonize_flag opts (to_int (fst junk)) = 0
  /\ last_device opts None = Some "/dev/uio1"
  /\ exec (main release 1 opts) board []
     = exit_with (exec (uio_run release 1 "/dev/uio1") (snd junk) []).
Proof.
  intros opts junk.
  assert (Hopts : forallb is_option opts = true) by reflexivity.
  assert (Hflag : daemonize_flag opts (to_int (fst junk)) = 0)
    by reflexivity.
  assert (Hname : last_device opts None = Some "/dev/uio1") by reflexivity.
  repeat (split; [assumption | ]).
  exact (main_runs_last_device release 1 opts board "/dev/uio1"
           Hopts Hflag Hname).
Defined.

(** X3 on [uiotest -D], seen from the parent: the daemon is announced
    although no device was named. *)
Lemma daemon_forks_before_device_witness :
  let junk := handle Z (Indeterminate "daemonize") parent_board in
  forallb is_option daemon_only = true
  /\ daemonize_flag daemon_only (to_int (fst junk)) <> 0
  /\ exec (main release 1 daemon_only) parent_board []
     = ([EvFork 4711;
         EvStdout "UIO test daemon starting with PID: %d\n" [FNum 4711]],
        Exited EXIT_SUCCESS).
Proof.
  intros junk.
  assert (Hopts : forallb is_option daemon_only = true) by reflexivity.
  assert (Hflag : daemonize_flag daemon_only (to_int (fst junk)) <> 0)
    by (vm_compute; discriminate).
  split; [exact Hopts | ]. split; [exact Hflag | ].
  exact (daemon_forks_before_device release 1 daemon_only parent_board
           Hopts Hflag).
Defined.

(** X4 on a board whose wait-read delivers the count 0. *)
Lemma zero_pending_count_is_ignored_witness :
  let wr := handle Z (WriteFd 3 1 4) idle_board in
  let rd := handle (Z * Z)%type (ReadFd 3 0 4) (snd wr) in
  (to_size_t ILP32 (fst wr) <? 4) = false
  /\ to_ulong ILP32 (snd (fst rd)) = 0
  /\ exec (uio_loop release 1 3 0x76ff0000 0) idle_board []
     = prefixed [EvWrite 3 1 4 4; EvRead 3 4 4 0]
         (exec (uio_loop release 0 3 0x76ff0000 0) (snd rd) []).
Proof.
  intros wr rd.
  assert (Hfull : (to_size_t ILP32 (fst wr) <? 4) = false) by reflexivity.
  assert (Hzero : to_ulong ILP32 (snd (fst rd)) = 0) by reflexivity.
  split; [exact Hfull | ]. split; [exact Hzero | ].
  exact (zero_pending_count_is_ignored release 0 3 0x76ff0000 0 idle_board
           Hfull Hzero).
Defined.
